(** * cinder: LVM brick, local LV helpers and the remote retry loop

    A shallow embedding of
      - [cinder/brick/lvm.py]        (class [LVM]),
      - [cinder/blk_local/lv_utils.py] (module level [get] and [revert]),
      - [cinder/volume/utils.py]     ([_run_ssh]),
    and the properties of the storage layer checked against it.

    Python objects are modelled by explicit state passing: a computation
    is a function from a world (the object, the state of the host, the
    commands and log lines emitted so far) to an outcome and a new world.
    A raised exception is an outcome; what was mutated before the raise
    stays mutated, as in Python. *)

From Stdlib Require Import String Ascii List ZArith Lia Bool.
From Stdlib Require Import SpecFloat DecimalString.
Import ListNotations.
Open Scope string_scope.
Open Scope list_scope.

(** ** Python strings *)

Module PyStr.

(** The characters [str.split()] treats as white space on a byte string:
    tab, line feed, vertical tab, form feed, carriage return, space. *)
Definition is_space (c : ascii) : bool :=
  let n := nat_of_ascii c in
  (Nat.leb 9 n && Nat.leb n 13) || Nat.eqb n 32.

Definition snoc (s : string) (c : ascii) : string :=
  s ++ String c EmptyString.

(** [s.split()]: maximal runs of non-space characters, no empty token. *)
Fixpoint split_ws_from (cur : string) (s : string) : list string :=
  match s with
  | EmptyString => if String.eqb cur "" then [] else [cur]
  | String c r =>
      if is_space c
      then (if String.eqb cur "" then split_ws_from "" r
            else cur :: split_ws_from "" r)
      else split_ws_from (snoc cur c) r
  end.

Definition split_ws (s : string) : list string := split_ws_from "" s.

(** [s.split(sep)] for a one character separator: every separator cuts,
    empty fields are kept, at least one field comes back. *)
Fixpoint split_on_from (sep : ascii) (cur : string) (s : string)
  : list string :=
  match s with
  | EmptyString => [cur]
  | String c r =>
      if Ascii.eqb c sep then cur :: split_on_from sep "" r
      else split_on_from sep (snoc cur c) r
  end.

Definition split_on (sep : ascii) (s : string) : list string :=
  split_on_from sep "" s.

(** [s.splitlines()] restricted to line feeds; used to speak about the
    lines of a tool's output. *)
Definition lines (s : string) : list string :=
  filter (fun l => negb (String.eqb l "")) (split_on "010"%char s).

(** [sep.join(l)] *)
Fixpoint join (sep : string) (l : list string) : string :=
  match l with
  | [] => ""
  | [x] => x
  | x :: r => x ++ sep ++ join sep r
  end.

(** [x in l] on a list of strings *)
Definition mem (x : string) (l : list string) : bool :=
  existsb (String.eqb x) l.

(** Characters of a string, the items [for c in s] visits. *)
Fixpoint chars (s : string) : list string :=
  match s with
  | EmptyString => []
  | String c r => String c EmptyString :: chars r
  end.

Fixpoint prefixb (p s : string) : bool :=
  match p, s with
  | EmptyString, _ => true
  | String a p', String b s' => Ascii.eqb a b && prefixb p' s'
  | String _ _, EmptyString => false
  end.

(** [p in s] on strings: [p] occurs as a contiguous substring. *)
Fixpoint contains (p s : string) : bool :=
  prefixb p s ||
  match s with
  | EmptyString => false
  | String _ r => contains p r
  end.

End PyStr.

(** ** Values, exceptions, outcomes *)

(** A dict with string keys and string values, in the order of the dict
    display that built it. *)
Definition dict := list (string * string).

Inductive pyval :=
| PNone
| PInt (z : Z)
| PBool (b : bool)
| PStr (s : string)
| PDict (d : dict).

(** What [locals()] holds when [_run_ssh] gives up. *)
Record ssh_locals := mk_ssh_locals {
  l_command : string;
  l_check_exit_code : option bool;
  l_attempts : Z;
  l_total_attempts : Z
}.

Inductive exn :=
| ProcessExecutionError (exit_code : Z) (stderr : string) (cmd : string)
| VolumeGroupNotFound (message : string)
| IndexError
| KeyError (key : string)
| TypeError (message : string)
| SSHException (message : string) (args : option ssh_locals)
| SocketError (message : string)
| ValueError (message : string)
| OverflowError (message : string)
| ZeroDivisionError (message : string).

Inductive outcome (A : Type) :=
| Return (a : A)
| Raise (e : exn).
Arguments Return {A} a.
Arguments Raise {A} e.

(** ** The state and exception monad *)

Definition M (W A : Type) : Type := W -> outcome A * W.

Definition ret {W A} (a : A) : M W A := fun w => (Return a, w).

Definition raise {W A} (e : exn) : M W A := fun w => (Raise e, w).

Definition bind {W A B} (m : M W A) (k : A -> M W B) : M W B :=
  fun w =>
    match m w with
    | (Return a, w') => k a w'
    | (Raise e, w') => (Raise e, w')
    end.

(** [try: m except: h e] *)
Definition try_except {W A} (m : M W A) (h : exn -> M W A) : M W A :=
  fun w =>
    match m w with
    | (Return a, w') => (Return a, w')
    | (Raise e, w') => h e w'
    end.

Definition get_world {W} : M W W := fun w => (Return w, w).
Definition modify {W} (f : W -> W) : M W unit := fun w => (Return tt, f w).

Declare Scope py_scope.
Delimit Scope py_scope with py.
Notation "x <- m ;; k" := (bind m (fun x => k))
  (at level 61, m at next level, right associativity) : py_scope.
Notation "m ;;; k" := (bind m (fun _ => k))
  (at level 61, right associativity) : py_scope.
Open Scope py_scope.

(** [seq[i]] on a list *)
Definition list_item {W A} (l : list A) (i : nat) : M W A :=
  match nth_error l i with
  | Some a => ret a
  | None => raise IndexError
  end.

Fixpoint dict_lookup (k : string) (d : dict) : option string :=
  match d with
  | [] => None
  | (k', v) :: r => if String.eqb k k' then Some v else dict_lookup k r
  end.

(** [d[k]] on a dict *)
Definition dict_item {W} (d : dict) (k : string) : M W string :=
  match dict_lookup k d with
  | Some v => ret v
  | None => raise (KeyError k)
  end.

(** ** What a computation leaves behind *)

Inductive event :=
| Exec (cmd : list string)          (* putils.execute on the argument list *)
| LogError (msg : string)
| LogDebug (msg : string)
| LogExn (e : exn)                  (* LOG.error(e) on a caught exception *)
| PoolNew                           (* utils.SSHPool(...) built *)
| PoolItem                          (* sshpool.item() entered *)
| PoolRelease                       (* the with block left *)
| SshExec (command : string) (check_exit_code : option bool)
| Sleep (centiseconds : Z).         (* greenthread.sleep(n / 100.0) *)

Definition is_ssh_exec (e : event) : bool :=
  match e with SshExec _ _ => true | _ => false end.

Definition is_sleep (e : event) : bool :=
  match e with Sleep _ => true | _ => false end.

(** The command lines handed to [putils.execute], oldest first. *)
Fixpoint commands (t : list event) : list (list string) :=
  match t with
  | [] => []
  | Exec c :: r => c :: commands r
  | _ :: r => commands r
  end.

(** A merge request is a command line starting [lvconvert --merge]. *)
Definition is_merge (cmd : list string) : bool :=
  match cmd with
  | a :: b :: _ => String.eqb a "lvconvert" && String.eqb b "--merge"
  | _ => false
  end.

(** A snapshot request is an [lvcreate] carrying [--snapshot]. *)
Definition is_snapshot_create (cmd : list string) : bool :=
  match cmd with
  | a :: r => String.eqb a "lvcreate" && PyStr.mem "--snapshot" r
  | _ => false
  end.

Definition is_vgcreate (cmd : list string) : bool :=
  match cmd with
  | a :: _ => String.eqb a "vgcreate"
  | _ => false
  end.

(** ** The host

    [putils.execute] lives outside the repository: it runs a command line
    on the machine and either returns the two captured streams or raises.
    The machine is a parameter: a state and a transition per command. *)

Record Host := mk_host {
  hstate : Type;
  execute : list string -> hstate -> outcome (string * string) * hstate
}.

(** [for x in l: ys.append(f(x))], stopping at the first exception *)
Fixpoint for_each {W A B} (f : A -> M W B) (l : list A) : M W (list B) :=
  match l with
  | [] => ret []
  | x :: r => y <- f x ;; ys <- for_each f r ;; ret (y :: ys)
  end.

(** [izip] over three references to one iterator of [l], so the items
    come out three at a time and an incomplete last group is dropped. *)
Fixpoint izip3 (l : list string) : list (string * string * string) :=
  match l with
  | a :: b :: c :: r => (a, b, c) :: izip3 r
  | _ => []
  end.

(** ** cinder/brick/lvm.py *)

Record LVM := mk_LVM {
  vg_name : string;
  pv_list : list pyval;
  lv_list : list dict;
  vg_size : pyval;
  vg_available_space : pyval;
  vg_lv_count : pyval;
  vg_uuid : pyval
}.

Definition set_pv_list (v : list pyval) (o : LVM) : LVM :=
  mk_LVM (vg_name o) v (lv_list o) (vg_size o) (vg_available_space o)
         (vg_lv_count o) (vg_uuid o).
Definition set_lv_list (v : list dict) (o : LVM) : LVM :=
  mk_LVM (vg_name o) (pv_list o) v (vg_size o) (vg_available_space o)
         (vg_lv_count o) (vg_uuid o).
Definition set_vg_size (v : pyval) (o : LVM) : LVM :=
  mk_LVM (vg_name o) (pv_list o) (lv_list o) v (vg_available_space o)
         (vg_lv_count o) (vg_uuid o).
Definition set_vg_available_space (v : pyval) (o : LVM) : LVM :=
  mk_LVM (vg_name o) (pv_list o) (lv_list o) (vg_size o) v
         (vg_lv_count o) (vg_uuid o).
Definition set_vg_lv_count (v : pyval) (o : LVM) : LVM :=
  mk_LVM (vg_name o) (pv_list o) (lv_list o) (vg_size o)
         (vg_available_space o) v (vg_uuid o).
Definition set_vg_uuid (v : pyval) (o : LVM) : LVM :=
  mk_LVM (vg_name o) (pv_list o) (lv_list o) (vg_size o)
         (vg_available_space o) (vg_lv_count o) v.

(** The world of a method call: the object, the host, what was emitted. *)
Record world (H : Host) := mk_world {
  self : LVM;
  sys : hstate H;
  trace : list event
}.
Arguments mk_world {H} _ _ _.
Arguments self {H} _.
Arguments sys {H} _.
Arguments trace {H} _.

Section Brick.

Variable H : Host.

Definition emit (e : event) : M (world H) unit :=
  modify (fun w => mk_world (self w) (sys w) (trace w ++ [e])).

Definition log_error (msg : string) : M (world H) unit :=
  emit (LogError msg).

Definition update_self (f : LVM -> LVM) : M (world H) unit :=
  modify (fun w => mk_world (f (self w)) (sys w) (trace w)).

Definition get_self : M (world H) LVM :=
  fun w => (Return (self w), w).

(** [putils.execute] on [cmd] with [root_helper='sudo', run_as_root=True] *)
Definition putils_execute (cmd : list string)
  : M (world H) (string * string) :=
  fun w =>
    let (r, s') := execute H cmd (sys w) in
    (r, mk_world (self w) s' (trace w ++ [Exec cmd])).

Definition _vg_exists : M (world H) bool :=
  o <- get_self ;;
  let cmd := ["vgs"; "--noheadings"; "-o"; "name"] in
  oe <- putils_execute cmd ;;
  let volume_groups := PyStr.split_ws (fst oe) in
  if negb (PyStr.mem (vg_name o) volume_groups) then ret false
  else ret true.

Definition _create_vg (pvs : list string) : M (world H) unit :=
  o <- get_self ;;
  let cmd := ["vgcreate"; vg_name o; PyStr.join "," pvs] in
  putils_execute cmd ;;; ret tt.

Definition __init__ (name : string) (create_vg : bool)
           (physical_volumes : option (list string)) : M (world H) unit :=
  update_self (fun _ => mk_LVM name [] [] (PInt 0) (PInt 0) (PInt 0) PNone) ;;;
  match create_vg, physical_volumes with
  | true, Some pvs =>
      update_self (set_pv_list (map PStr pvs)) ;;;
      try_except (_create_vg pvs)
        (fun e =>
           log_error "Failed initialization create Volume Group." ;;;
           raise e)
  | _, _ => ret tt
  end ;;;
  ex <- _vg_exists ;;
  if negb ex
  then log_error ("Unable to locate Volume Group " ++ name) ;;;
       raise (VolumeGroupNotFound ("Unable to find Volume Group: " ++ name))
  else ret tt.

(** The object before [__init__] has assigned anything. *)
Definition blank : LVM := mk_LVM "" [] [] PNone PNone PNone PNone.

(** [LVM(name, create_vg, physical_volumes)] on a host in state [s]:
    the instance if [__init__] returns, the exception otherwise. *)
Definition new_LVM (name : string) (create_vg : bool)
           (physical_volumes : option (list string)) (s : hstate H)
  : outcome LVM * world H :=
  match __init__ name create_vg physical_volumes (mk_world blank s []) with
  | (Return _, w) => (Return (self w), w)
  | (Raise e, w) => (Raise e, w)
  end.

Definition with_vg (cmd : list string) (vg : option string) : list string :=
  match vg with
  | Some v => cmd ++ [v]
  | None => cmd
  end.

Definition lv_record (t : string * string * string) : dict :=
  let '(vg, name, size) := t in
  [("vg", vg); ("name", name); ("size", size)].

Definition get_all_volumes (vg : option string) : M (world H) (list dict) :=
  let cmd := with_vg ["lvs"; "--noheadings"; "-o"; "vg_name,name,size"] vg in
  oe <- putils_execute cmd ;;
  let volumes := PyStr.split_ws (fst oe) in
  ret (map lv_record (izip3 volumes)).

Definition get_volumes : M (world H) (list dict) :=
  o <- get_self ;;
  l <- get_all_volumes (Some (vg_name o)) ;;
  update_self (set_lv_list l) ;;;
  o' <- get_self ;;
  ret (lv_list o').

(** [for r in ref_list: if r['name'] == name: return r]; falling off the
    end of the function returns [None]. *)
Fixpoint first_named (name : string) (ref_list : list dict)
  : M (world H) (option dict) :=
  match ref_list with
  | [] => ret None
  | r :: rest =>
      n <- dict_item r "name" ;;
      if String.eqb n name then ret (Some r) else first_named name rest
  end.

Definition get_volume (name : string) : M (world H) (option dict) :=
  ref_list <- get_volumes ;;
  first_named name ref_list.

Definition pv_record (pv : string) : M (world H) dict :=
  let fields := PyStr.split_on ":" pv in
  f0 <- list_item fields 0 ;;
  f1 <- list_item fields 1 ;;
  f2 <- list_item fields 2 ;;
  f3 <- list_item fields 3 ;;
  ret [("vg", f0); ("name", f1); ("size", f2); ("available", f3)].

Definition get_all_physical_volumes (vg : option string)
  : M (world H) (list dict) :=
  let cmd := with_vg ["pvs"; "--noheadings"; "-o"; "vg_name,name,size,free";
                      "--separator"; ":"] vg in
  oe <- putils_execute cmd ;;
  let pvs := PyStr.split_ws (fst oe) in
  for_each pv_record pvs.

Definition get_physical_volumes : M (world H) (list pyval) :=
  o <- get_self ;;
  l <- get_all_physical_volumes (Some (vg_name o)) ;;
  update_self (set_pv_list (map PDict l)) ;;;
  o' <- get_self ;;
  ret (pv_list o').

Definition vg_record (vg : string) : M (world H) dict :=
  let fields := PyStr.split_on ":" vg in
  f0 <- list_item fields 0 ;;
  f1 <- list_item fields 1 ;;
  f2 <- list_item fields 2 ;;
  f3 <- list_item fields 3 ;;
  f4 <- list_item fields 4 ;;
  ret [("name", f0); ("size", f1); ("available", f2); ("lv_count", f3);
       ("uuid", f4)].

Definition get_all_volume_groups (vg : option string)
  : M (world H) (list dict) :=
  let cmd := with_vg ["vgs"; "--noheadings";
                      "-o"; "name,size,free,lv_count,uuid";
                      "--separator"; ":"] vg in
  oe <- putils_execute cmd ;;
  let vgs := PyStr.split_ws (fst oe) in
  for_each vg_record vgs.

Definition update_volume_group_info : M (world H) dict :=
  o <- get_self ;;
  vg_list <- get_all_physical_volumes (Some (vg_name o)) ;;
  (if Nat.ltb 1 (length vg_list)
   then log_error "Something is seriously jacked up...."
   else ret tt) ;;;
  r <- list_item vg_list 0 ;; v <- dict_item r "size" ;;
  update_self (set_vg_size (PStr v)) ;;;
  r <- list_item vg_list 0 ;; v <- dict_item r "available" ;;
  update_self (set_vg_available_space (PStr v)) ;;;
  r <- list_item vg_list 0 ;; v <- dict_item r "lv_count" ;;
  update_self (set_vg_lv_count (PStr v)) ;;;
  r <- list_item vg_list 0 ;; v <- dict_item r "uuid" ;;
  update_self (set_vg_uuid (PStr v)) ;;;
  list_item vg_list 0.

(** Returns [False] when the source is unknown, [None] otherwise. *)
Definition create_lv_snapshot (name source_lv_name type : string)
  : M (world H) pyval :=
  source_lvref <- get_volume source_lv_name ;;
  match source_lvref with
  | None => log_error "FAIL" ;;; ret (PBool false)
  | Some ref =>
      o <- get_self ;;
      let cmd := ["lvcreate"; "--name"; name; "--snapshot";
                  (vg_name o ++ "/" ++ source_lv_name)%string] in
      cmd <- (if negb (String.eqb type "thin")
              then size <- dict_item ref "size" ;; ret (cmd ++ ["-L"; size])
              else ret cmd) ;;
      putils_execute cmd ;;; ret PNone
  end.

Definition delete (name : string) : M (world H) unit :=
  o <- get_self ;;
  putils_execute ["lvremove"; "-f"; (vg_name o ++ "/" ++ name)%string] ;;; ret tt.

Definition revert (snapshot_name : string) : M (world H) unit :=
  putils_execute ["lvconvert"; "--merge"; snapshot_name] ;;; ret tt.

End Brick.

(** ** cinder/blk_local/lv_utils.py

    Module level functions: they run in the same worlds and leave the
    object alone.  Their dicts come from [dict(map(None, it, it))], whose
    last value is [None] when the items are odd in number. *)

Definition ldict := list (string * option string).

Fixpoint ldict_set (k : string) (v : option string) (d : ldict) : ldict :=
  match d with
  | [] => [(k, v)]
  | (k', v') :: r =>
      if String.eqb k k' then (k, v) :: r else (k', v') :: ldict_set k v r
  end.

Fixpoint ldict_lookup (k : string) (d : ldict) : option (option string) :=
  match d with
  | [] => None
  | (k', v) :: r => if String.eqb k k' then Some v else ldict_lookup k r
  end.

(** [map(None, it, it)] over one iterator: consecutive pairs, the short
    side padded with [None]. *)
Fixpoint pairs_padded (l : list string) : list (string * option string) :=
  match l with
  | a :: b :: r => (a, Some b) :: pairs_padded r
  | [a] => [(a, None)]
  | [] => []
  end.

(** [dict(pairs)]: a later pair replaces an earlier one with its key. *)
Definition dict_of_pairs (l : list (string * option string)) : ldict :=
  fold_left (fun d kv => ldict_set (fst kv) (snd kv) d) l [].

(** [str(x)] as [putils.execute] applies it to each argument. *)
Definition py_str (v : option string) : string :=
  match v with
  | Some s => s
  | None => "None"
  end.

(** [re.split(r'\s{2,}', s)]: a run of two or more white space characters
    separates, a lone one belongs to its field. *)
Inductive resplit_state :=
| InField (cur : string)
| OneSpace (cur : string) (sp : ascii)
| InGap.

Fixpoint re_split_2ws_from (st : resplit_state) (s : string) : list string :=
  match s with
  | EmptyString =>
      match st with
      | InField cur => [cur]
      | OneSpace cur sp => [PyStr.snoc cur sp]
      | InGap => [""]
      end
  | String c r =>
      if PyStr.is_space c then
        match st with
        | InField cur => re_split_2ws_from (OneSpace cur c) r
        | OneSpace cur _ => cur :: re_split_2ws_from InGap r
        | InGap => re_split_2ws_from InGap r
        end
      else
        match st with
        | InField cur => re_split_2ws_from (InField (PyStr.snoc cur c)) r
        | OneSpace cur sp =>
            re_split_2ws_from (InField (PyStr.snoc (PyStr.snoc cur sp) c)) r
        | InGap => re_split_2ws_from (InField (String c EmptyString)) r
        end
    end.

Definition re_split_2ws (s : string) : list string :=
  re_split_2ws_from (InField "") s.

Section LvUtils.

Variable H : Host.

(** A bare [raise] with no exception being handled. *)
Definition bare_raise {A} : M (world H) A :=
  raise (TypeError
    "exceptions must be old-style classes or derived from BaseException, not NoneType").

(** [del l[-1]] *)
Definition del_last (l : list string) : M (world H) (list string) :=
  match l with
  | [] => raise IndexError
  | _ => ret (removelast l)
  end.

(** [del l[0]] *)
Definition del_first (l : list string) : M (world H) (list string) :=
  match l with
  | [] => raise IndexError
  | _ :: r => ret r
  end.

(** The [for line in out] loop of [get]; [Some vg] is the [break]. *)
Fixpoint scan_lines (name : string) (items : list string)
  : M (world H) (option string) :=
  match items with
  | [] => ret None
  | line :: rest =>
      if PyStr.contains name line then
        let parsed_line := PyStr.split_ws line in
        if Nat.ltb 1 (length parsed_line)
        then v <- list_item parsed_line 1 ;; ret (Some v)
        else log_error H ("Found LV but failed parsing: " ++ line) ;;;
             bare_raise
      else scan_lines name rest
  end.

Definition lv_get (name : string) (vg : option string)
  : M (world H) ldict :=
  vg <- match vg with
        | None =>
            oe <- putils_execute H ["lvs"; "--noheadings"; "-o"; "name,vg_name"] ;;
            (* [out] is a string: the loop visits its characters *)
            scan_lines name (PyStr.chars (fst oe))
        | Some v => ret (Some v)
        end ;;
  match vg with
  | None => log_error H "Volume Group not found" ;;; bare_raise
  | Some v =>
      let lv_path := (v ++ "/" ++ name)%string in
      oe <- putils_execute H ["lvdisplay"; lv_path] ;;
      let formatted_output := re_split_2ws (fst oe) in
      l <- del_last formatted_output ;;
      l <- del_first l ;;
      l <- del_first l ;;
      ret (dict_of_pairs (pairs_padded l))
  end.

(** [d[k]] on the dicts of this module *)
Definition ldict_item (d : ldict) (k : string)
  : M (world H) (option string) :=
  match ldict_lookup k d with
  | Some v => ret v
  | None => raise (KeyError k)
  end.

Definition lv_revert (snapshot_name : string) (vg : option string)
  : M (world H) unit :=
  lv_ref <- lv_get snapshot_name vg ;;
  n <- ldict_item lv_ref "LV Name" ;;
  putils_execute H ["lvconvert"; "--merge"; py_str n] ;;; ret tt.

End LvUtils.

(** ** cinder/volume/utils.py: the remote retry loop

    [utils.SSHPool], its [item()] and [utils.ssh_execute] live outside the
    repository, as does the random source.  The remote side is a parameter;
    [ssh_execute] either returns the two streams or raises: a
    [ProcessExecutionError] for a command that ran and exited non-zero
    while its exit code is checked, anything else for the transport. *)

Record Remote := mk_remote {
  rstate : Type;
  SSHPool : rstate -> outcome unit * rstate;
  item : rstate -> outcome unit * rstate;
  ssh_execute : string -> option bool -> rstate
                -> outcome (string * string) * rstate;
  randint : Z -> Z -> rstate -> Z * rstate
}.

Record rworld (R : Remote) := mk_rworld {
  sshpool : bool;               (* [self.sshpool] is set *)
  rsys : rstate R;
  rtrace : list event
}.
Arguments mk_rworld {R} _ _ _.
Arguments sshpool {R} _.
Arguments rsys {R} _.
Arguments rtrace {R} _.

Definition is_execution_error (e : exn) : bool :=
  match e with
  | ProcessExecutionError _ _ _ => true
  | _ => false
  end.

Definition gave_up_message : string :=
  "SSH Command failed after '%(total_attempts)r' attempts: '%(command)s'".

Section VolumeUtils.

Variable R : Remote.

Definition remit (e : event) : M (rworld R) unit :=
  modify (fun w => mk_rworld (sshpool w) (rsys w) (rtrace w ++ [e])).

Definition on_remote {A} (ev : event)
           (f : rstate R -> outcome A * rstate R) : M (rworld R) A :=
  fun w =>
    let (r, s') := f (rsys w) in
    (r, mk_rworld (sshpool w) s' (rtrace w ++ [ev])).

Definition draw (lo hi : Z) : M (rworld R) Z :=
  fun w =>
    let (n, s') := randint R lo hi (rsys w) in
    (Return n, mk_rworld (sshpool w) s' (rtrace w)).

(** [with ...: body]: the block is left on every path. *)
Definition leaving {A} (body : M (rworld R) A) : M (rworld R) A :=
  fun w =>
    let (r, w') := body w in
    (r, mk_rworld (sshpool w') (rsys w') (rtrace w' ++ [PoolRelease])).

(** The [while attempts > 0] loop; [n] is the number of iterations the
    test still allows, [Z.to_nat attempts].  [Some] is the [return] from
    inside the loop, [None] its normal end; the counter comes back too. *)
Fixpoint attempt_loop (n : nat) (attempts : Z) (command : string)
         (check_exit_code : option bool)
  : M (rworld R) (option (string * string) * Z) :=
  match n with
  | O => ret (None, attempts)
  | S n' =>
      let attempts := (attempts - 1)%Z in
      try_except
        (r <- on_remote (SshExec command check_exit_code)
                        (ssh_execute R command check_exit_code) ;;
         ret (Some r, attempts))
        (fun e =>
           remit (LogExn e) ;;;
           d <- draw 20 500 ;;
           remit (Sleep d) ;;;
           attempt_loop n' attempts command check_exit_code)
  end.

Definition _run_ssh (command : string) (check_exit_code : option bool)
           (attempts : Z) : M (rworld R) (string * string) :=
  w <- get_world ;;
  (if negb (sshpool w)
   then on_remote PoolNew (SSHPool R) ;;;
        modify (fun w => mk_rworld true (rsys w) (rtrace w))
   else ret tt) ;;;
  try_except
    (let total_attempts := attempts in
     on_remote PoolItem (item R) ;;;
     leaving
       (r <- attempt_loop (Z.to_nat attempts) attempts command
                          check_exit_code ;;
        match r with
        | (Some res, _) => ret res
        | (None, attempts) =>
            raise (SSHException gave_up_message
                     (Some (mk_ssh_locals command check_exit_code
                                          attempts total_attempts)))
        end))
    (fun e =>
       remit (LogError ("Error running ssh command: " ++ command)) ;;;
       raise e).

End VolumeUtils.

(** ** Concrete hosts

    Small machines on which the definitions above run: a host that knows a
    list of volume groups and answers the inventory commands with fixed
    text, and a remote side that plays a script, one entry per attempt. *)

Definition nl : string := String "010"%char EmptyString.

Definition vgs_output (vgs : list string) : string :=
  String.concat "" (map (fun v => "  " ++ v ++ nl)%string vgs).

Definition head_is (w : string) (cmd : list string) : bool :=
  match cmd with
  | a :: _ => String.eqb a w
  | [] => false
  end.

(** [lvs] prints [lvs_text], [pvs] prints [pvs_text], [vgs] the known
    groups; [vgcreate] adds a group; [lvconvert --merge] succeeds on
    [vg0/snap1] alone; everything else succeeds silently. *)
Definition demo_execute (lvs_text pvs_text : string) (cmd : list string)
           (vgs : list string) : outcome (string * string) * list string :=
  if head_is "vgs" cmd then (Return (vgs_output vgs, ""), vgs)
  else if head_is "lvs" cmd then (Return (lvs_text, ""), vgs)
  else if head_is "pvs" cmd then (Return (pvs_text, ""), vgs)
  else if head_is "vgcreate" cmd then (Return ("", ""), vgs ++ [nth 1 cmd ""])
  else if is_merge cmd then
    if String.eqb (nth 2 cmd "") "vg0/snap1" then (Return ("", ""), vgs)
    else (Raise (ProcessExecutionError 5 "  Failed to find logical volume"
                   (PyStr.join " " cmd)), vgs)
  else (Return ("", ""), vgs).

Definition demo_host (lvs_text pvs_text : string) : Host :=
  mk_host (list string) (demo_execute lvs_text pvs_text).

Definition two_lvs : string :=
  ("  vg0 lv1 1.00g" ++ nl ++ "  vg0 lv2 2.00g" ++ nl)%string.

Definition one_pv : string := ("  vg0:/dev/sda1:10.00g:5.00g" ++ nl)%string.

(** The usual machine: groups [vg0] and [vg1], two volumes, one device. *)
Definition demo : Host := demo_host two_lvs one_pv.

Definition demo_world (o : LVM) : world demo :=
  @mk_world demo o ["vg0"; "vg1"] [].

Definition vg0_object : LVM :=
  mk_LVM "vg0" [] [] (PInt 0) (PInt 0) (PInt 0) PNone.

(** A machine whose [lvs] prints a first line of two fields, and whose
    [pvs] prints a line of five. *)
Definition ragged_lvs : string :=
  ("  vg0 lv1" ++ nl ++ "  vg0 lv2 2.00g" ++ nl)%string.

Definition long_pv : string :=
  ("  vg0:/dev/sda1:10.00g:5.00g:extra" ++ nl)%string.

Definition ragged : Host := demo_host ragged_lvs long_pv.

Definition ragged_world : world ragged :=
  @mk_world ragged vg0_object ["vg0"] [].

(** A remote side playing [script]: attempt [n] gets entry [n], and the
    transport times out once the script is over.  The pool works and the
    random source always draws the lower bound. *)
Definition scripted (script : list (outcome (string * string))) : Remote :=
  mk_remote nat
    (fun n => (Return tt, n))
    (fun n => (Return tt, n))
    (fun _ _ n => (nth n script (Raise (SocketError "timed out")), S n))
    (fun lo _ n => (lo, n)).

Definition rejected : exn :=
  ProcessExecutionError 1 "" "lvremove -f vg0/lv1".

(** First the command runs and exits 1, then it runs and succeeds. *)
Definition fails_once : Remote :=
  scripted [Raise rejected; Return ("done", "")].

(** The transport never works. *)
Definition unreachable : Remote := scripted [].

Definition fresh_rworld (R : Remote) (s : rstate R) : rworld R :=
  mk_rworld false s [].

(** ** Specification vocabulary *)

Definition vgs_query : list string := ["vgs"; "--noheadings"; "-o"; "name"].

Definition lvs_query (vg : option string) : list string :=
  with_vg ["lvs"; "--noheadings"; "-o"; "vg_name,name,size"] vg.

Definition pvs_query (vg : option string) : list string :=
  with_vg ["pvs"; "--noheadings"; "-o"; "vg_name,name,size,free";
           "--separator"; ":"] vg.

Definition merge_request (snapshot_name : string) : list string :=
  ["lvconvert"; "--merge"; snapshot_name].

(** The records an [lvs] output is read into. *)
Definition inventory (out : string) : list dict :=
  map lv_record (izip3 (PyStr.split_ws out)).

(** The record's [name] field is exactly [name]. *)
Definition named (name : string) (r : dict) : bool :=
  match dict_lookup "name" r with
  | Some n => String.eqb n name
  | None => false
  end.

(** The object [__init__] has filled in when it reaches the check. *)
Definition initialised (name : string) (create_vg : bool)
           (physical_volumes : option (list string)) : LVM :=
  match create_vg, physical_volumes with
  | true, Some pvs => mk_LVM name (map PStr pvs) [] (PInt 0) (PInt 0) (PInt 0) PNone
  | _, _ => mk_LVM name [] [] (PInt 0) (PInt 0) (PInt 0) PNone
  end.

Definition vgcreate_request (name : string) (pvs : list string)
  : list string :=
  ["vgcreate"; name; PyStr.join "," pvs].

(** The commands [__init__] has issued when it reaches the check. *)
Definition before_check (name : string) (create_vg : bool)
           (physical_volumes : option (list string)) : list event :=
  match create_vg, physical_volumes with
  | true, Some pvs => [Exec (vgcreate_request name pvs)]
  | _, _ => []
  end.

(** The host is in state [s1] when [__init__], started in [s], reaches
    the check: either nothing was to create, or the create returned. *)
Definition reaches_check (H : Host) (name : string) (create_vg : bool)
           (physical_volumes : option (list string)) (s s1 : hstate H)
  : Prop :=
  match create_vg, physical_volumes with
  | true, Some pvs =>
      exists oe, execute H (vgcreate_request name pvs) s = (Return oe, s1)
  | _, _ => s1 = s
  end.

Definition not_found (name : string) : exn :=
  VolumeGroupNotFound ("Unable to find Volume Group: " ++ name).

(** The record made of the first four [:] separated fields of a token. *)
Definition first_four (pv : string) : dict :=
  let f := PyStr.split_on ":" pv in
  [("vg", nth 0 f ""); ("name", nth 1 f ""); ("size", nth 2 f "");
   ("available", nth 3 f "")].

Definition four_fields (pv : string) : bool :=
  Nat.leb 4 (length (PyStr.split_on ":" pv)).

Definition count {A} (p : A -> bool) (l : list A) : nat :=
  length (filter p l).

(** ** The rest of the modules *)

(** [s.strip()] *)
Fixpoint lstrip (s : string) : string :=
  match s with
  | EmptyString => EmptyString
  | String c r => if PyStr.is_space c then lstrip r else s
  end.

Fixpoint rstrip (s : string) : string :=
  match s with
  | EmptyString => EmptyString
  | String c r =>
      let r' := rstrip r in
      if String.eqb r' "" && PyStr.is_space c then EmptyString
      else String c r'
  end.

Definition strip (s : string) : string := rstrip (lstrip s).

(** [bool(v)] *)
Definition truthy (v : pyval) : bool :=
  match v with
  | PNone => false
  | PInt z => negb (Z.eqb z 0)
  | PBool b => b
  | PStr s => negb (String.eqb s "")
  | PDict d => match d with [] => false | _ => true end
  end.

Section LvUtilsRest.

Variable H : Host.

Definition get_lsize (name : string) (vg : option string) (suffix : string)
  : M (world H) string :=
  lv_ref <- lv_get H name vg ;;
  n <- ldict_item H lv_ref "LV Name" ;;
  oe <- putils_execute H ["lvs"; "--noheadings"; "-o"; "lv_size";
                          "--units"; suffix; py_str n] ;;
  ret (strip (fst oe)).

(** [get(name)] is called with the name of the snapshot to make, and
    without a group. *)
Definition create_snapshot (name source_lv_name type : string)
  : M (world H) unit :=
  source_ref <- lv_get H name None ;;
  n <- ldict_item H source_ref "LV Name" ;;
  let cmd := ["lvcreate"; "--name"; name; "--snapshot"; py_str n] in
  cmd <- (if negb (String.eqb type "thin")
          then size <- ldict_item H source_ref "LV Size" ;;
               ret (cmd ++ ["-L"; py_str size])
          else ret cmd) ;;
  putils_execute H cmd ;;; ret tt.

Definition lv_delete (name : string) (vg : option string)
  : M (world H) unit :=
  lv_ref <- lv_get H name vg ;;
  n <- ldict_item H lv_ref "LV Name" ;;
  putils_execute H ["lvremove"; py_str n] ;;; ret tt.

End LvUtilsRest.

Section San.

Variable R : Remote.

(** The keyword arguments of a call, of which [san_execute] reads
    [check_exit_code] ([None] when it is not given), and
    [utils.execute], which gets them all and runs the command on the
    machine itself. *)
Variable kwargs : Type.
Variable check_exit_code_of : kwargs -> option bool.
Variable utils_execute :
  list string -> kwargs -> rstate R -> outcome (string * string) * rstate R.

Definition san_execute (san_is_local : bool) (cmd : list string)
           (kw : kwargs) : M (rworld R) (string * string) :=
  if san_is_local
  then on_remote R (Exec cmd) (utils_execute cmd kw)
  else
    let check_exit_code := check_exit_code_of kw in
    let command := PyStr.join " " cmd in
    _run_ssh R command check_exit_code 1.

End San.

(** ** Numbers

    A Python int is an integer without bound.  A Python float is an IEEE
    754 binary64; [SpecFloat] is the specification of those, with a
    mantissa of 53 bits and 1024 as the exponent of the infinities. *)

Module PyNum.

Definition prec : Z := 53.
Definition emax : Z := 1024.

(** [str(n)] on an int *)
Definition str (n : Z) : string := NilZero.string_of_int (Z.to_int n).

Definition is_digit (c : ascii) : bool :=
  let n := nat_of_ascii c in Nat.leb 48 n && Nat.leb n 57.

(** The value of a run of digits read after [acc], and what follows it. *)
Fixpoint digits_from (acc : Z) (s : string) : Z * string :=
  match s with
  | String c r =>
      if is_digit c
      then digits_from (10 * acc + Z.of_nat (nat_of_ascii c - 48)) r
      else (acc, s)
  | EmptyString => (acc, s)
  end.

Definition starts_with_digit (s : string) : bool :=
  match s with
  | String c _ => is_digit c
  | EmptyString => false
  end.

(** [int(s)] on a string, base ten: white space, a sign, white space
    again, digits, white space.  Anything else is a [ValueError]. *)
Definition int (s : string) : outcome Z :=
  let s := lstrip s in
  let '(negative, s) :=
    match s with
    | String "-" r => (true, r)
    | String "+" r => (false, r)
    | _ => (false, s)
    end in
  let s := lstrip s in
  if starts_with_digit s then
    let '(n, rest) := digits_from 0 s in
    if String.eqb (lstrip rest) ""
    then Return (if negative then - n else n)%Z
    else Raise (ValueError "invalid literal for int() with base 10")
  else Raise (ValueError "invalid literal for int() with base 10").

(** [s[:-1]] *)
Fixpoint drop_last (s : string) : string :=
  match s with
  | EmptyString => EmptyString
  | String c EmptyString => EmptyString
  | String c r => String c (drop_last r)
  end.

(** An int where a float is wanted: the nearest float, ties to even; an
    int beyond the range of the floats is an [OverflowError]. *)
Definition float (n : Z) : outcome spec_float :=
  match binary_normalize prec emax n 0 false with
  | S754_infinity _ =>
      Raise (OverflowError "long int too large to convert to float")
  | f => Return f
  end.

Definition is_zero (f : spec_float) : bool :=
  match f with
  | S754_zero _ => true
  | _ => false
  end.

(** [a / b] on floats *)
Definition truediv (a b : spec_float) : outcome spec_float :=
  if is_zero b then Raise (ZeroDivisionError "float division by zero")
  else Return (SFdiv prec emax a b).

(** [a >= b] on floats; false when one of them is not a number. *)
Definition ge (a b : spec_float) : bool := SFleb b a.

(** What [math.ceil] returns: a float that holds an integer, or the
    infinity or the not-a-number it was given. *)
Inductive whole :=
| WNan
| WInf (negative : bool)
| WInt (k : Z).

Definition ceil (f : spec_float) : whole :=
  match f with
  | S754_nan => WNan
  | S754_infinity s => WInf s
  | S754_zero _ => WInt 0
  | S754_finite s m e =>
      let v := if s then Zneg m else Zpos m in
      WInt (match e with
            | Zneg p => - ((- v) / 2 ^ Zpos p)
            | _ => v * 2 ^ e
            end)
  end.

(** [2 ** y] for [y] out of [math.ceil]: exact while the result is a
    float, zero below the smallest of them, an [OverflowError] above the
    largest. *)
Definition pow2 (y : whole) : outcome spec_float :=
  match y with
  | WNan => Return S754_nan
  | WInf false => Return (S754_infinity false)
  | WInf true => Return (S754_zero false)
  | WInt k =>
      if (emax <=? k)%Z
      then Raise (OverflowError "(34, 'Numerical result out of range')")
      else Return (binary_normalize prec emax 1 k false)
  end.

(** [int(x)] on a float: towards zero. *)
Definition int_of_float (f : spec_float) : outcome Z :=
  match f with
  | S754_nan => Raise (ValueError "cannot convert float NaN to integer")
  | S754_infinity _ =>
      Raise (OverflowError "cannot convert float infinity to integer")
  | S754_zero _ => Return 0%Z
  | S754_finite s m e =>
      let v := match e with
               | Zneg p => (Zpos m / 2 ^ Zpos p)%Z
               | _ => (Zpos m * 2 ^ e)%Z
               end in
      Return (if s then - v else v)%Z
  end.

(** The floats [1024.0] and [1.5], and [2.0], which [math.log] is given
    for the int [2]. *)
Definition f1024 : spec_float := S754_finite false 4503599627370496 (-42).
Definition f1_5 : spec_float := S754_finite false 6755399441055744 (-52).
Definition f2 : spec_float := S754_finite false 4503599627370496 (-51).

End PyNum.

(** ** cinder/brick/lvm.py: [create_volume]

    [math.log] is the logarithm of the C library, outside the repository:
    a parameter, which returns a float or raises. *)

Section BrickCreate.

Variable H : Host.
Variable math_log : spec_float -> outcome spec_float.

(** A computation that changes nothing. *)
Definition pure {A} (o : outcome A) : M (world H) A := fun w => (o, w).

Definition log_debug (msg : string) : M (world H) unit :=
  emit H (LogDebug msg).

(** [int(2 ** math.ceil(math.log(terras) / math.log(2)))] *)
Definition region_size (terras : spec_float) : M (world H) Z :=
  a <- pure (math_log terras) ;;
  b <- pure (math_log PyNum.f2) ;;
  q <- pure (PyNum.truediv a b) ;;
  p <- pure (PyNum.pow2 (PyNum.ceil q)) ;;
  pure (PyNum.int_of_float p).

(** The arguments of the command are what [putils.execute] makes of
    them: [str] of each, also of the int [mirror_count]. *)
Definition create_volume (name size type : string) (mirror_count : Z)
  : M (world H) unit :=
  o <- get_self H ;;
  let cmd := ["lvcreate"; "-n"; name; vg_name o] in
  let cmd := if String.eqb type "thin"
             then cmd ++ ["-T"; "-V"; size]
             else cmd ++ ["-L"; size] in
  cmd <- (if (0 <? mirror_count)%Z
          then
            let cmd := cmd ++ ["-m"; PyNum.str mirror_count; "--nosync"] in
            n <- pure (PyNum.int (PyNum.drop_last size)) ;;
            x <- pure (PyNum.float n) ;;
            terras <- pure (PyNum.truediv x PyNum.f1024) ;;
            if PyNum.ge terras PyNum.f1_5
            then rsize <- region_size terras ;;
                 ret (cmd ++ ["-R"; PyNum.str rsize])
            else ret cmd
          else ret cmd) ;;
  oe <- putils_execute H cmd ;;
  log_debug ("output was: " ++ fst oe).

End BrickCreate.

(** ** More vocabulary *)

Definition is_release (e : event) : bool :=
  match e with PoolRelease => true | _ => false end.

Definition is_pool_new (e : event) : bool :=
  match e with PoolNew => true | _ => false end.

(** What one attempt leaves in the trace when it fails. *)
Definition failed_attempt (command : string) (cec : option bool)
           (e : exn) (d : Z) : list event :=
  [SshExec command cec; LogExn e; Sleep d].

(** [k] attempts in a row fail, taking the remote side from [s] to [s'];
    [t] is what they leave in the trace. *)
Inductive failed_attempts (R : Remote) (command : string)
          (cec : option bool)
  : nat -> rstate R -> rstate R -> list event -> Prop :=
| no_attempt s : failed_attempts R command cec 0 s s []
| one_more k s e s1 d s2 s3 t :
    ssh_execute R command cec s = (Raise e, s1) ->
    randint R 20 500 s1 = (d, s2) ->
    failed_attempts R command cec k s2 s3 t ->
    failed_attempts R command cec (S k) s s3
                    (failed_attempt command cec e d ++ t).

Definition gave_up (command : string) (cec : option bool)
           (left total : Z) : exn :=
  SSHException gave_up_message
               (Some (mk_ssh_locals command cec left total)).

Definition ssh_error_line (command : string) : event :=
  LogError ("Error running ssh command: " ++ command).

(** The call gets a session: the pool is there, or is built now, and the
    checkout works; [s0] is the remote side once the session is out. *)
Definition obtains_session (R : Remote) (w : rworld R) (s0 : rstate R)
  : Prop :=
  if sshpool w
  then item R (rsys w) = (Return tt, s0)
  else exists sp,
      SSHPool R (rsys w) = (Return tt, sp) /\ item R sp = (Return tt, s0).

(** What getting the session leaves in the trace. *)
Definition session_events (pool : bool) : list event :=
  (if pool then [] else [PoolNew]) ++ [PoolItem].

(** Texts a tool prints.  A word has a character and no white space. *)
Fixpoint no_space (s : string) : bool :=
  match s with
  | EmptyString => true
  | String c r => negb (PyStr.is_space c) && no_space r
  end.

Fixpoint all_space (s : string) : bool :=
  match s with
  | EmptyString => true
  | String c r => PyStr.is_space c && all_space r
  end.

Definition is_word (s : string) : bool :=
  negb (String.eqb s "") && no_space s.

(** A gap is white space, at least one character of it. *)
Definition is_gap (s : string) : bool :=
  negb (String.eqb s "") && all_space s.

Fixpoint no_colon (s : string) : bool :=
  match s with
  | EmptyString => true
  | String c r => negb (Ascii.eqb c ":") && no_colon r
  end.

(** A field of a [:] separated line: no white space and no colon; it may
    be empty. *)
Definition is_field (s : string) : bool := no_space s && no_colon s.

(** A line of what [lvs] prints: an indent, then the three columns, each
    followed by its own white space; the line ends after [l_padding].
    The columns are padded to a common width, so the white space differs
    from column to column and from line to line. *)
Record lvs_line := mk_lvs_line {
  l_indent : string;
  l_vg : string;
  l_gap1 : string;
  l_name : string;
  l_gap2 : string;
  l_size : string;
  l_padding : string
}.

Definition line_fields (x : lvs_line) : string * string * string :=
  (l_vg x, l_name x, l_size x).

(** The three columns are words, with white space between them. *)
Definition line_ok (x : lvs_line) : bool :=
  all_space (l_indent x) && is_word (l_vg x) && is_gap (l_gap1 x)
  && is_word (l_name x) && is_gap (l_gap2 x) && is_word (l_size x)
  && all_space (l_padding x).

(** The [lvs] listing of [l], a line per volume. *)
Fixpoint lvs_listing (l : list lvs_line) : string :=
  match l with
  | [] => ""
  | x :: r =>
      l_indent x ++ l_vg x ++ l_gap1 x ++ l_name x ++ l_gap2 x ++ l_size x
      ++ l_padding x ++ nl ++ lvs_listing r
  end.

(** A listing with [:] between the fields, a line per row. *)
Fixpoint colon_listing (gap : string) (rows : list (list string)) : string :=
  match rows with
  | [] => ""
  | row :: r => gap ++ PyStr.join ":" row ++ nl ++ colon_listing gap r
  end.

Definition pv_row (t : string * string * string * string) : list string :=
  let '(vg, name, size, free) := t in [vg; name; size; free].

Definition pv_dict (t : string * string * string * string) : dict :=
  let '(vg, name, size, free) := t in
  [("vg", vg); ("name", name); ("size", size); ("available", free)].

Record vg_summary := mk_vg_summary {
  s_name : string;
  s_size : string;
  s_free : string;
  s_lv_count : string;
  s_uuid : string
}.

Definition vg_row (v : vg_summary) : list string :=
  [s_name v; s_size v; s_free v; s_lv_count v; s_uuid v].

Definition vg_dict (v : vg_summary) : dict :=
  [("name", s_name v); ("size", s_size v); ("available", s_free v);
   ("lv_count", s_lv_count v); ("uuid", s_uuid v)].

Definition vgs_summary_query (vg : option string) : list string :=
  with_vg ["vgs"; "--noheadings"; "-o"; "name,size,free,lv_count,uuid";
           "--separator"; ":"] vg.

(** The cells of an [lvdisplay] text: a cell starts with a character that
    is no white space, and each white space character in it is followed
    by one that is not. *)
Fixpoint tight (s : string) : bool :=
  match s with
  | EmptyString => true
  | String a r =>
      match r with
      | EmptyString => negb (PyStr.is_space a)
      | String b _ =>
          (if PyStr.is_space a then negb (PyStr.is_space b) else true)
          && tight r
      end
  end.

Definition is_cell (s : string) : bool :=
  match s with
  | EmptyString => false
  | String a _ => negb (PyStr.is_space a) && tight s
  end.

(** A wide gap is white space, at least two characters of it. *)
Definition is_wide_gap (s : string) : bool :=
  match s with
  | String a (String b r) =>
      PyStr.is_space a && PyStr.is_space b && all_space r
  | _ => false
  end.

(** A line of what [lvdisplay] prints: a label, the padding up to the
    value column, the value, and the line break with the indent of the
    next line.  Padding and break differ from line to line. *)
Record shown := mk_shown {
  d_label : string;
  d_pad : string;
  d_value : string;
  d_break : string
}.

Definition shown_pair (x : shown) : string * string :=
  (d_label x, d_value x).

(** Label and value are cells; padding and break are wide gaps. *)
Definition shown_ok (x : shown) : bool :=
  is_cell (d_label x) && is_wide_gap (d_pad x)
  && is_cell (d_value x) && is_wide_gap (d_break x).

Fixpoint shown_text (l : list shown) : string :=
  match l with
  | [] => ""
  | x :: r => d_label x ++ d_pad x ++ d_value x ++ d_break x ++ shown_text r
  end.

Fixpoint flat_pairs (l : list (string * string)) : list string :=
  match l with
  | [] => []
  | (k, v) :: r => k :: v :: flat_pairs r
  end.

(** What [lvdisplay] prints: the indented heading, a line break, then a
    label and a value per line. *)
Definition lvdisplay_text (indent heading break : string)
           (l : list shown) : string :=
  indent ++ heading ++ break ++ shown_text l.

Definition some_values (l : list (string * string))
  : list (string * option string) :=
  map (fun kv => (fst kv, Some (snd kv))) l.

(** The last value bound to [k] in a list of pairs. *)
Fixpoint last_bound (k : string) (l : list (string * string))
  : option string :=
  match l with
  | [] => None
  | (k', v) :: r =>
      match last_bound k r with
      | Some v' => Some v'
      | None => if String.eqb k k' then Some v else None
      end
  end.

(** A row of two fields or more, none with white space or a colon. *)
Definition is_row (row : list string) : bool :=
  Nat.leb 2 (length row) && forallb is_field row.

(** The events an attempt leaves: the execution, and after a failure
    the logged exception and the sleep. *)
Definition loop_event (e : event) : bool :=
  match e with
  | SshExec _ _ | LogExn _ | Sleep _ => true
  | _ => false
  end.

(** The line [_run_ssh] logs before it passes an exception on. *)
Definition closing (A : Type) (r : outcome A) (command : string)
  : list event :=
  match r with
  | Return _ => []
  | Raise _ => [ssh_error_line command]
  end.
Arguments closing {A} r command.

(** The query [get] runs when it is given no group. *)
Definition lvs_names_query : list string :=
  ["lvs"; "--noheadings"; "-o"; "name,vg_name"].

(** ** More machines *)

(** A machine that answers by the command alone. *)
Definition canned (reply : list string -> outcome (string * string)) : Host :=
  mk_host unit (fun cmd s => (reply cmd, s)).

(** Every command fails with exit code 5. *)
Definition refusing : Host :=
  canned (fun cmd => Raise (ProcessExecutionError 5 "" (PyStr.join " " cmd))).

Definition printing (text : string) : Host :=
  canned (fun _ => Return (text, "")).

Definition plain_world (H : Host) (s : hstate H) (o : LVM) : world H :=
  mk_world o s [].

(** A line break and the indent of the next line. *)
Definition next_line : string := String "010" "  ".

(** Three lines of an [lvdisplay], and the blank line that ends it. *)
Definition lv1_display : list shown :=
  [mk_shown "LV Name" "                " "/dev/vg0/lv1" next_line;
   mk_shown "VG Name" "                " "vg0" next_line;
   mk_shown "LV Size" "                " "1.00 GiB"
            (String "010" (String " " (String " " (String " " nl))))].

(** Two failures, then an answer. *)
Definition fails_twice : Remote :=
  scripted [Raise rejected; Raise (SocketError "reset"); Return ("ok", "")].

(** The pool cannot be built. *)
Definition no_pool : Remote :=
  mk_remote nat
    (fun n => (Raise (SocketError "connection refused"), n))
    (fun n => (Return tt, n))
    (fun _ _ n => (Return ("", ""), S n))
    (fun lo _ n => (lo, n)).

(** The pool is there but hands out no session. *)
Definition no_session : Remote :=
  mk_remote nat
    (fun n => (Return tt, n))
    (fun n => (Raise (SocketError "connection refused"), n))
    (fun _ _ n => (Return ("", ""), S n))
    (fun lo _ n => (lo, n)).

(** Nothing on the remote side answers: no pool, no session, no
    execution. *)
Definition no_route : exn := SocketError "no route to host".

Definition down : Remote :=
  mk_remote unit
    (fun s => (Raise no_route, s))
    (fun s => (Raise no_route, s))
    (fun _ _ s => (Raise no_route, s))
    (fun lo _ s => (lo, s)).

(** Two volumes as [lvs] prints them, the columns padded to the widest
    entry and the sizes set to the right. *)
Definition listed : list lvs_line :=
  [mk_lvs_line "  " "cinder-volumes" " " "volume-0001" " " "12.00g" "";
   mk_lvs_line "  " "vg0" "            " "lv1" "          " "1.00g" ""].

Definition devices : list (string * string * string * string) :=
  [("vg0", "/dev/sda1", "10.00g", "5.00g"); ("", "/dev/sdb", "8.00g", "8.00g")].

Definition groups : list vg_summary :=
  [mk_vg_summary "vg0" "10.00g" "5.00g" "2" "Zx1-aa"].

Definition heading : string := "--- Logical volume ---".

Definition lvs_printer : Host := printing (lvs_listing listed).

Definition pvs_printer : Host :=
  printing (colon_listing "  " (map pv_row devices)).

Definition vgs_printer : Host :=
  printing (colon_listing "  " (map vg_row groups)).

(** [lvdisplay] prints the three lines; every other command is silent. *)
Definition display_printer : Host :=
  canned (fun cmd =>
            if head_is "lvdisplay" cmd
            then Return (lvdisplay_text "  " heading next_line lv1_display, "")
            else Return ("", "")).

Definition silent : Host := printing "".

(** ** Creating a volume: vocabulary *)

(** The ints from [lo] on, [k] of them. *)
Fixpoint zrange (lo : Z) (k : nat) : list Z :=
  match k with
  | O => []
  | S k' => lo :: zrange (lo + 1) k'
  end.

(** [float(n) / 1024.0 >= 1.5] as the code computes it. *)
Definition at_least_1_5_terras (n : Z) : bool :=
  PyNum.ge (SFdiv PyNum.prec PyNum.emax
              (binary_normalize PyNum.prec PyNum.emax n 0 false) PyNum.f1024)
           PyNum.f1_5.

(** Running [cmd] on the host and logging its output at debug level:
    what comes back when the command returns, and when it fails. *)
Definition runs (H : Host) (cmd : list string) (w : world H)
  : outcome unit * world H :=
  match execute H cmd (sys w) with
  | (Return oe, s) =>
      (Return tt,
       mk_world (self w) s
                (trace w ++ [Exec cmd; LogDebug ("output was: " ++ fst oe)]))
  | (Raise e, s) => (Raise e, mk_world (self w) s (trace w ++ [Exec cmd]))
  end.

(** The floats nearest to the logarithms of [2.0], [3.0] and [2.0 ** 29],
    which is what the C library returns for them
    ([0x1.62e42fefa39efp-1], [0x1.193ea7aad030bp+0] and
    [0x1.419ecb712c481p+4]), and the floats [3.0] and [2.0 ** 29]. *)
Definition ln_2 : spec_float := S754_finite false 6243314768165359 (-53).
Definition ln_3 : spec_float := S754_finite false 4947709893870347 (-52).
Definition ln_2_29 : spec_float := S754_finite false 5658004008649857 (-48).
Definition f3 : spec_float := S754_finite false 6755399441055744 (-51).
Definition f2_29 : spec_float := S754_finite false 4503599627370496 (-23).

(** The logarithm of the C library at these three floats.  No other
    argument is used below; they are given the domain error. *)
Definition libm_log (x : spec_float) : outcome spec_float :=
  match x with
  | S754_finite false 4503599627370496 (-51) => Return ln_2
  | S754_finite false 6755399441055744 (-51) => Return ln_3
  | S754_finite false 4503599627370496 (-23) => Return ln_2_29
  | _ => Raise (ValueError "math domain error")
  end.

(** * Properties *)

(** ** Reading the inventory *)

Lemma izip3_length (l : list string) :
  length (izip3 l) = length l / 3.
Proof.
  assert (G : forall n (k : list string),
             length k <= n -> length (izip3 k) = length k / 3).
  { induction n as [|n IH]; intros k Hk.
    - destruct k; [reflexivity | simpl in Hk; lia].
    - destruct k as [|a [|b [|c r]]]; try reflexivity.
      cbn [izip3 length].
      rewrite IH by (simpl in Hk; lia).
      replace (S (S (S (length r)))) with (1 * 3 + length r) by lia.
      rewrite Nat.div_add_l by lia. lia. }
  apply (G (length l)). lia.
Qed.

Lemma izip3_nth (l : list string) (i : nat) :
  i < length l / 3 ->
  nth_error (izip3 l) i =
  Some (nth (3 * i) l "", nth (3 * i + 1) l "", nth (3 * i + 2) l "").
Proof.
  assert (D : forall r : list string,
             S (S (S (length r))) / 3 = S (length r / 3)).
  { intros r. replace (S (S (S (length r)))) with (1 * 3 + length r) by lia.
    rewrite Nat.div_add_l by lia. lia. }
  revert l. induction i as [|i IH]; intros l Hi;
    destruct l as [|a [|b [|c r]]];
    try (cbn in Hi; lia).
  - reflexivity.
  - cbn [length] in Hi. rewrite D in Hi.
    cbn [izip3 nth_error].
    rewrite (IH r) by lia.
    replace (3 * S i) with (S (S (S (3 * i)))) by lia.
    replace (S (S (S (3 * i))) + 1) with (S (S (S (3 * i + 1)))) by lia.
    replace (S (S (S (3 * i))) + 2) with (S (S (S (3 * i + 2)))) by lia.
    reflexivity.
Qed.

Lemma inventory_record (out : string) (r : dict) :
  In r (inventory out) ->
  exists vg name size, r = [("vg", vg); ("name", name); ("size", size)].
Proof.
  unfold inventory. intros Hin. apply in_map_iff in Hin.
  destruct Hin as [[[vg name] size] [E _]].
  exists vg, name, size. symmetry. exact E.
Qed.

Section BrickFacts.

Variable H : Host.

Lemma putils_execute_run (cmd : list string) (w : world H) r s' :
  execute H cmd (sys w) = (r, s') ->
  putils_execute H cmd w = (r, mk_world (self w) s' (trace w ++ [Exec cmd])).
Proof.
  intros E. unfold putils_execute. rewrite E. reflexivity.
Qed.

Lemma get_all_volumes_run vg (w : world H) out err s1 :
  execute H (lvs_query vg) (sys w) = (Return (out, err), s1) ->
  get_all_volumes H vg w =
  (Return (inventory out),
   mk_world (self w) s1 (trace w ++ [Exec (lvs_query vg)])).
Proof.
  intros E. unfold get_all_volumes, bind, lvs_query in *.
  rewrite (putils_execute_run _ _ _ _ E). reflexivity.
Qed.

Lemma get_volumes_run (w : world H) out err s1 :
  let q := lvs_query (Some (vg_name (self w))) in
  execute H q (sys w) = (Return (out, err), s1) ->
  get_volumes H w =
  (Return (inventory out),
   mk_world (set_lv_list (inventory out) (self w)) s1
            (trace w ++ [Exec q])).
Proof.
  intros q E. unfold get_volumes, bind, get_self.
  rewrite (get_all_volumes_run _ _ _ _ _ E). reflexivity.
Qed.

Lemma first_named_find name (l : list dict) (w : world H) :
  (forall r, In r l -> exists n, dict_lookup "name" r = Some n) ->
  first_named H name l w = (Return (find (named name) l), w).
Proof.
  induction l as [|r l IH]; intros Hl.
  - reflexivity.
  - destruct (Hl r (or_introl eq_refl)) as [n Hn].
    cbn [first_named find]. unfold bind, dict_item, named.
    rewrite Hn. cbn [ret].
    destruct (String.eqb n name).
    + reflexivity.
    + apply IH. intros r' Hr'. apply Hl. right. exact Hr'.
Qed.

Lemma inventory_has_names out (r : dict) :
  In r (inventory out) -> exists n, dict_lookup "name" r = Some n.
Proof.
  intros Hin. destruct (inventory_record _ _ Hin) as (vg & n & sz & ->).
  exists n. reflexivity.
Qed.

Lemma get_volume_run name (w : world H) out err s1 :
  let q := lvs_query (Some (vg_name (self w))) in
  execute H q (sys w) = (Return (out, err), s1) ->
  get_volume H name w =
  (Return (find (named name) (inventory out)),
   mk_world (set_lv_list (inventory out) (self w)) s1
            (trace w ++ [Exec q])).
Proof.
  intros q E. unfold get_volume, bind.
  rewrite (get_volumes_run _ _ _ _ E).
  apply first_named_find. intros r Hr. exact (inventory_has_names _ _ Hr).
Qed.

(** C9.  [get_volume(name)] runs [lvs --noheadings -o vg_name,name,size]
    on the group the object is bound to and on no other, stores the
    records read from it in [lv_list], and returns the first record whose
    [name] field equals [name] exactly; when no record has that name it
    returns [None] and raises nothing. *)
Theorem get_volume_exact_lookup name (w : world H) out err s1 :
  execute H ["lvs"; "--noheadings"; "-o"; "vg_name,name,size";
             vg_name (self w)] (sys w)
  = (Return (out, err), s1) ->
  get_volume H name w =
  (Return (find (named name) (inventory out)),
   mk_world (set_lv_list (inventory out) (self w)) s1
            (trace w ++ [Exec ["lvs"; "--noheadings"; "-o";
                               "vg_name,name,size"; vg_name (self w)]]))
  /\ (forall r, find (named name) (inventory out) = Some r ->
                In r (inventory out) /\ dict_lookup "name" r = Some name)
  /\ (find (named name) (inventory out) = None <->
      forall r, In r (inventory out) -> dict_lookup "name" r <> Some name).
Proof.
  intros E.
  change ["lvs"; "--noheadings"; "-o"; "vg_name,name,size"; vg_name (self w)]
    with (lvs_query (Some (vg_name (self w)))) in *.
  split; [exact (get_volume_run name w out err s1 E)|].
  assert (Hit : forall r, named name r = true ->
                          dict_lookup "name" r = Some name).
  { intros r. unfold named. destruct (dict_lookup "name" r) as [n|].
    - intros Hn. apply String.eqb_eq in Hn. now subst.
    - discriminate. }
  split.
  - intros r Hf. apply find_some in Hf. destruct Hf as [Hin Hn].
    split; [exact Hin | exact (Hit r Hn)].
  - split.
    + intros Hnone r Hin Hr.
      pose proof (find_none _ _ Hnone r Hin) as Hf.
      unfold named in Hf. rewrite Hr, String.eqb_refl in Hf. discriminate.
    + intros Hall. destruct (find (named name) (inventory out)) as [r|] eqn:Hf.
      * apply find_some in Hf. destruct Hf as [Hin Hn].
        exfalso. exact (Hall r Hin (Hit r Hn)).
      * reflexivity.
Qed.

(** C8.  [create_lv_snapshot(name, source_lv_name, kind)] first reads the
    [lvs] inventory of the bound group.  When no record is named
    [source_lv_name] it logs, returns [False] and issues no further
    command.  When a record is found it runs one more command, the
    snapshot create on [vg/source], which unless [kind] is ["thin"] ends
    in [-L] and the [size] field of the record found; it returns [None]
    when that command returns and raises its error when it fails. *)
Theorem create_lv_snapshot_checks_source name source kind (w : world H)
        out err s1 :
  execute H ["lvs"; "--noheadings"; "-o"; "vg_name,name,size";
             vg_name (self w)] (sys w)
  = (Return (out, err), s1) ->
  let q := ["lvs"; "--noheadings"; "-o"; "vg_name,name,size";
            vg_name (self w)] in
  let o1 := set_lv_list (inventory out) (self w) in
  match find (named source) (inventory out) with
  | None =>
      create_lv_snapshot H name source kind w =
      (Return (PBool false),
       mk_world o1 s1 (trace w ++ [Exec q; LogError "FAIL"]))
  | Some r =>
      exists size,
        dict_lookup "size" r = Some size /\
        let cmd :=
          ["lvcreate"; "--name"; name; "--snapshot";
           (vg_name (self w) ++ "/" ++ source)%string]
          ++ (if String.eqb kind "thin" then [] else ["-L"; size]) in
        create_lv_snapshot H name source kind w =
        match execute H cmd s1 with
        | (Return _, s2) =>
            (Return PNone, mk_world o1 s2 (trace w ++ [Exec q; Exec cmd]))
        | (Raise e, s2) =>
            (Raise e, mk_world o1 s2 (trace w ++ [Exec q; Exec cmd]))
        end
  end.
Proof.
  intros E q o1. subst q o1.
  change ["lvs"; "--noheadings"; "-o"; "vg_name,name,size"; vg_name (self w)]
    with (lvs_query (Some (vg_name (self w)))) in *.
  destruct (find (named source) (inventory out)) as [r|] eqn:Hf.
  - pose proof (find_some _ _ Hf) as [Hin _].
    destruct (inventory_record _ _ Hin) as (vg & n & sz & ->).
    exists sz. split; [reflexivity|].
    unfold create_lv_snapshot, bind.
    rewrite (get_volume_run source w out err s1 E), Hf.
    unfold get_self. cbn [self set_lv_list vg_name].
    destruct (String.eqb kind "thin"); cbn [negb];
      unfold dict_item, ret, putils_execute;
      cbn [dict_lookup String.eqb Ascii.eqb Bool.eqb sys self trace app];
      match goal with
      | |- context [execute H ?c s1] => destruct (execute H c s1) as [[x|e] s2]
      end; rewrite <- app_assoc; reflexivity.
  - unfold create_lv_snapshot, bind.
    rewrite (get_volume_run source w out err s1 E), Hf.
    unfold log_error, emit, modify, ret. cbn [self sys trace].
    rewrite <- app_assoc. reflexivity.
Qed.

(** *** Construction *)

Lemma vg_exists_run (w : world H) out err s2 :
  execute H vgs_query (sys w) = (Return (out, err), s2) ->
  _vg_exists H w =
  (Return (PyStr.mem (vg_name (self w)) (PyStr.split_ws out)),
   mk_world (self w) s2 (trace w ++ [Exec vgs_query])).
Proof.
  intros E. unfold _vg_exists, bind, get_self, vgs_query in *.
  rewrite (putils_execute_run _ _ _ _ E). cbn [fst].
  destruct (PyStr.mem (vg_name (self w)) (PyStr.split_ws out)); reflexivity.
Qed.

(** Unfolds the methods down to the host's transitions. *)
Ltac run_methods :=
  unfold new_LVM, __init__, _create_vg, _vg_exists, try_except, bind,
    update_self, get_self, putils_execute, log_error, emit, modify,
    raise, ret;
  cbn [self sys trace set_pv_list vg_name fst snd].

(** C7.  Construction runs the [vgs] name query, after the group was
    created when that was asked for, and looks the name up in the
    white space separated list the query printed.  When the name is
    absent, [__init__] raises [VolumeGroupNotFound] with the name in its
    message and the constructor hands no instance back; when it is
    present, the instance is returned. *)
Theorem construction_verifies_vg name create_vg pvs (s s1 s2 : hstate H)
        out err :
  reaches_check H name create_vg pvs s s1 ->
  execute H vgs_query s1 = (Return (out, err), s2) ->
  new_LVM H name create_vg pvs s =
  if PyStr.mem name (PyStr.split_ws out)
  then (Return (initialised name create_vg pvs),
        mk_world (initialised name create_vg pvs) s2
                 (before_check name create_vg pvs ++ [Exec vgs_query]))
  else (Raise (not_found name),
        mk_world (initialised name create_vg pvs) s2
                 (before_check name create_vg pvs ++
                  [Exec vgs_query;
                   LogError ("Unable to locate Volume Group " ++ name)])).
Proof.
  intros Hr E.
  assert (Hs1 : match create_vg, pvs with
                | true, Some l =>
                    exists oe,
                      execute H ["vgcreate"; name; PyStr.join "," l] s
                      = (Return oe, s1)
                | _, _ => s1 = s
                end) by exact Hr.
  clear Hr. unfold vgs_query, not_found in *.
  destruct create_vg; [destruct pvs as [l|]|];
    [destruct Hs1 as [oe Hc] | subst s1 | subst s1];
    run_methods; try rewrite Hc;
    cbn [self sys trace vg_name set_pv_list fst snd];
    rewrite E; cbn [self sys trace vg_name set_pv_list fst snd];
    destruct (PyStr.mem name (PyStr.split_ws out)); try destruct pvs;
    reflexivity.
Qed.

(** X1.  No instance comes back unless the check was reached and passed:
    whenever the constructor returns an object, the [vgs] query ran after
    the optional create, it printed the name, and the object carries it. *)
Lemma instance_was_checked name create_vg pvs (s : hstate H) o w :
  new_LVM H name create_vg pvs s = (Return o, w) ->
  exists s1 out err,
    reaches_check H name create_vg pvs s s1 /\
    execute H vgs_query s1 = (Return (out, err), sys w) /\
    PyStr.mem name (PyStr.split_ws out) = true /\
    vg_name o = name.
Proof.
  intros N.
  assert (R : exists s1, reaches_check H name create_vg pvs s s1).
  { destruct create_vg; [destruct pvs as [l|]|].
    - destruct (execute H (vgcreate_request name l) s) as [[oe|e] s1] eqn:Hc.
      + exists s1, oe. exact Hc.
      + exfalso. revert N. unfold vgcreate_request in Hc.
        run_methods. rewrite Hc. discriminate.
    - exists s. reflexivity.
    - exists s. destruct pvs; reflexivity. }
  destruct R as [s1 Hr]. exists s1.
  destruct (execute H vgs_query s1) as [[[out err]|e] s2] eqn:E.
  - exists out, err. split; [exact Hr|].
    revert N. unfold vgs_query in *.
    destruct create_vg; [destruct pvs as [l|]|];
      [ destruct Hr as [oe Hc]; unfold vgcreate_request in Hc
      | cbn [reaches_check] in Hr; subst s1
      | assert (s1 = s) by (destruct pvs; exact Hr); subst s1 ];
      run_methods; try rewrite Hc;
      cbn [self sys trace vg_name set_pv_list fst snd];
      rewrite E; cbn [self sys trace vg_name set_pv_list fst snd];
      destruct (PyStr.mem name (PyStr.split_ws out)); try discriminate;
      intros N; inversion N; subst; cbn [sys vg_name];
      repeat split; exact E.
  - exfalso. revert N. unfold vgs_query in E.
    destruct create_vg; [destruct pvs as [l|]|].
    + destruct Hr as [oe Hc]. unfold vgcreate_request in Hc.
      run_methods. rewrite Hc.
      cbn [self sys trace vg_name set_pv_list fst snd].
      rewrite E. discriminate.
    + cbn [reaches_check] in Hr. subst s1.
      run_methods. rewrite E. discriminate.
    + assert (s1 = s) by (destruct pvs; exact Hr). subst s1.
      run_methods. rewrite E. discriminate.
Qed.

(** C10.  With [create_vg] set and no physical volumes given, the
    constructor does what it does without [create_vg]: the one command
    it issues is the [vgs] name query, no [vgcreate]; it raises
    [VolumeGroupNotFound] unless the name is in the list printed (and
    passes on the failure of the query itself). *)
Theorem create_vg_without_pvs_only_checks name (s : hstate H) :
  new_LVM H name true None s = new_LVM H name false None s
  /\ commands (trace (snd (new_LVM H name true None s))) = [vgs_query]
  /\ existsb is_vgcreate
             (commands (trace (snd (new_LVM H name true None s)))) = false
  /\ fst (new_LVM H name true None s) =
     match fst (execute H vgs_query s) with
     | Return (out, _) =>
         if PyStr.mem name (PyStr.split_ws out)
         then Return (mk_LVM name [] [] (PInt 0) (PInt 0) (PInt 0) PNone)
         else Raise (not_found name)
     | Raise e => Raise e
     end.
Proof.
  split; [reflexivity|].
  assert (C : commands (trace (snd (new_LVM H name true None s)))
              = [vgs_query]).
  { unfold vgs_query. run_methods.
    destruct (execute H ["vgs"; "--noheadings"; "-o"; "name"] s)
      as [[[out err]|e] s2]; cbn [fst];
      [destruct (PyStr.mem name (PyStr.split_ws out))|]; reflexivity. }
  split; [exact C|]. split; [rewrite C; reflexivity|].
  unfold vgs_query, not_found. run_methods.
  destruct (execute H ["vgs"; "--noheadings"; "-o"; "name"] s)
    as [[[out err]|e] s2]; cbn [fst];
    [destruct (PyStr.mem name (PyStr.split_ws out))|]; reflexivity.
Qed.

(** *** The group summary *)

Lemma pv_record_keys pv (w w' : world H) d :
  pv_record H pv w = (Return d, w') ->
  dict_lookup "lv_count" d = None.
Proof.
  unfold pv_record, bind, list_item, ret, raise.
  destruct (PyStr.split_on ":" pv) as [|a [|b [|c [|e r]]]];
    cbn [nth_error]; intros E; inversion E; reflexivity.
Qed.

Lemma for_each_pv_record_keys pvs (w w' : world H) l :
  for_each (pv_record H) pvs w = (Return l, w') ->
  forall d, In d l -> dict_lookup "lv_count" d = None.
Proof.
  revert w w' l. induction pvs as [|pv pvs IH]; intros w w' l E d Hd.
  - cbn in E. inversion E; subst. destruct Hd.
  - cbn [for_each] in E. unfold bind at 1 in E.
    destruct (pv_record H pv w) as [[d0|e] w1] eqn:E0; [|discriminate].
    unfold bind at 1 in E.
    destruct (for_each (pv_record H) pvs w1) as [[l1|e] w2] eqn:E1;
      [|discriminate].
    cbn [ret] in E. inversion E; subst.
    destruct Hd as [<-|Hd].
    + exact (pv_record_keys _ _ _ _ E0).
    + exact (IH _ _ _ E1 d Hd).
Qed.

(** X21.  [update_volume_group_info] reads the physical volume inventory, whose
    records have no [lv_count]: it raises whatever the host answers. *)
Lemma update_volume_group_info_raises (w : world H) :
  exists e, fst (update_volume_group_info H w) = Raise e.
Proof.
  unfold update_volume_group_info. unfold bind at 1, get_self at 1.
  unfold bind at 1.
  destruct (get_all_physical_volumes H (Some (vg_name (self w))) w)
    as [[l|e] w1] eqn:E; [|exists e; reflexivity].
  assert (K : forall d, In d l -> dict_lookup "lv_count" d = None).
  { revert E. unfold get_all_physical_volumes. unfold bind at 1.
    destruct (putils_execute H _ w) as [[oe|e] w0]; [|discriminate].
    intros E. exact (for_each_pv_record_keys _ _ _ _ E). }
  destruct l as [|d l].
  - exists IndexError.
    unfold bind, list_item, log_error, emit, modify, ret, raise.
    reflexivity.
  - specialize (K d (or_introl eq_refl)).
    unfold bind, list_item, dict_item, log_error, emit, modify, ret, raise,
      update_self.
    cbn [nth_error length].
    destruct (Nat.ltb 1 (S (length l)));
      destruct (dict_lookup "size" d); try (eexists; reflexivity);
      destruct (dict_lookup "available" d); try (eexists; reflexivity);
      rewrite K; eexists; reflexivity.
Qed.

(** *** Field counts *)

Lemma pv_record_run pv (w : world H) :
  pv_record H pv w =
  if four_fields pv then (Return (first_four pv), w)
  else (Raise IndexError, w).
Proof.
  unfold pv_record, four_fields, first_four, bind, list_item, ret, raise.
  destruct (PyStr.split_on ":" pv) as [|a [|b [|c [|e r]]]]; reflexivity.
Qed.

Lemma for_each_pv_record_run pvs (w : world H) :
  for_each (pv_record H) pvs w =
  if forallb four_fields pvs then (Return (map first_four pvs), w)
  else (Raise IndexError, w).
Proof.
  induction pvs as [|pv pvs IH].
  - reflexivity.
  - cbn [for_each forallb map]. unfold bind at 1.
    rewrite pv_record_run. destruct (four_fields pv); cbn [andb].
    + unfold bind at 1. rewrite IH.
      destruct (forallb four_fields pvs); reflexivity.
    + reflexivity.
Qed.

(** C4, as the code has it.  Nothing counts the fields of a line and
    nothing raises a parse error.  The [lvs] output is cut at white
    space into one run of tokens, lines forgotten, and record [i] is
    made of tokens [3i], [3i+1], [3i+2]; there are as many records as
    whole groups of three.  Each white space separated token of the
    [pvs] output is cut at [:] and its first four fields make the
    record, further fields being ignored; a token with fewer than four
    raises [IndexError]. *)
Theorem inventory_parsing_is_positional vg (w : world H)
        lv_out lv_err s1 pv_out pv_err s2 :
  execute H (lvs_query vg) (sys w) = (Return (lv_out, lv_err), s1) ->
  execute H (pvs_query vg) (sys w) = (Return (pv_out, pv_err), s2) ->
  (let toks := PyStr.split_ws lv_out in
   exists recs,
     fst (get_all_volumes H vg w) = Return recs /\
     length recs = length toks / 3 /\
     forall i, i < length toks / 3 ->
       nth_error recs i =
       Some [("vg", nth (3 * i) toks ""); ("name", nth (3 * i + 1) toks "");
             ("size", nth (3 * i + 2) toks "")])
  /\
  (let toks := PyStr.split_ws pv_out in
   fst (get_all_physical_volumes H vg w) =
   if forallb four_fields toks then Return (map first_four toks)
   else Raise IndexError).
Proof.
  intros El Ep. split.
  - intros toks. exists (inventory lv_out).
    rewrite (get_all_volumes_run vg w lv_out lv_err s1 El). cbn [fst].
    unfold inventory. fold toks.
    split; [reflexivity|]. split.
    + rewrite length_map. apply izip3_length.
    + intros i Hi. rewrite nth_error_map, (izip3_nth toks i Hi).
      reflexivity.
  - intros toks. unfold get_all_physical_volumes, bind, pvs_query in *.
    rewrite (putils_execute_run _ _ _ _ Ep). cbn [fst]. fold toks.
    rewrite for_each_pv_record_run.
    destruct (forallb four_fields toks); reflexivity.
Qed.

(** *** Reverting *)

(** C3, as the code has it.  [revert(snapshot_name)] looks nothing up:
    whatever the name, the one command it issues is the merge request
    for that name, and it fails exactly when that command fails, with
    the command's own error. *)
Theorem revert_issues_merge_unchecked snapshot_name (w : world H) :
  trace (snd (revert H snapshot_name w))
  = trace w ++ [Exec (merge_request snapshot_name)]
  /\ fst (revert H snapshot_name w) =
     match fst (execute H (merge_request snapshot_name) (sys w)) with
     | Return _ => Return tt
     | Raise e => Raise e
     end.
Proof.
  unfold revert, merge_request, bind, putils_execute, ret.
  destruct (execute H ["lvconvert"; "--merge"; snapshot_name] (sys w))
    as [[oe|e] s1]; split; reflexivity.
Qed.

End BrickFacts.

(** ** The module level helpers *)

Section LvUtilsFacts.

Variable H : Host.

Lemma commands_app (t u : list event) :
  commands (t ++ u) = commands t ++ commands u.
Proof.
  induction t as [|[] t IH]; cbn; congruence.
Qed.

(** A one character item never has a second field. *)
Lemma one_char_fields (c : ascii) :
  Nat.ltb 1 (length (PyStr.split_ws (String c EmptyString))) = false.
Proof.
  unfold PyStr.split_ws. cbn [PyStr.split_ws_from].
  destruct (PyStr.is_space c); reflexivity.
Qed.

(** The loop of [get] runs over the characters of the output, so it
    never finds a group: it ends without one or raises, and issues no
    command. *)
Lemma scan_lines_chars name out (w : world H) :
  exists r w',
    scan_lines H name (PyStr.chars out) w = (r, w') /\
    (r = Return None \/ exists e, r = Raise e) /\
    sys w' = sys w /\ commands (trace w') = commands (trace w).
Proof.
  induction out as [|c out IH].
  - exists (Return None), w. cbn. auto.
  - cbn [PyStr.chars scan_lines].
    destruct (PyStr.contains name (String c EmptyString)).
    + rewrite one_char_fields.
      eexists _, _. split; [reflexivity|].
      split; [right; eexists; reflexivity|].
      unfold bind, log_error, emit, modify, bare_raise, raise.
      cbn [sys trace]. split; [reflexivity|].
      rewrite commands_app. cbn. apply app_nil_r.
    + exact IH.
Qed.

(** Without a group name [get] always raises, having issued the one
    [lvs] query. *)
Lemma lv_get_without_vg_raises name (w : world H) :
  exists e w',
    lv_get H name None w = (Raise e, w') /\
    commands (trace w')
    = commands (trace w) ++ [["lvs"; "--noheadings"; "-o"; "name,vg_name"]].
Proof.
  unfold lv_get. unfold bind at 1. unfold bind at 1.
  unfold putils_execute.
  destruct (execute H ["lvs"; "--noheadings"; "-o"; "name,vg_name"] (sys w))
    as [[oe|e] s1].
  - destruct (scan_lines_chars name (fst oe)
                (mk_world (self w) s1
                   (trace w ++ [Exec ["lvs"; "--noheadings"; "-o"; "name,vg_name"]])))
      as (r & w1 & E & Hr & _ & Hc).
    rewrite E. cbn [trace] in Hc. rewrite commands_app in Hc.
    cbn [commands] in Hc.
    destruct Hr as [-> | [e ->]].
    + eexists _, _. split; [reflexivity|].
      cbn [trace]. rewrite commands_app, Hc. cbn. apply app_nil_r.
    + eexists _, _. split; [reflexivity|]. exact Hc.
  - eexists _, _. split; [reflexivity|].
    cbn [trace]. rewrite commands_app. reflexivity.
Qed.

(** [lv_utils.revert] resolves the name first: when [get] raises, so
    does [revert], in the same world, and no merge was requested. *)
Lemma lv_revert_lookup_first name vg (w w' : world H) e :
  lv_get H name vg w = (Raise e, w') ->
  lv_revert H name vg w = (Raise e, w').
Proof.
  intros E. unfold lv_revert. unfold bind at 1. rewrite E. reflexivity.
Qed.

Lemma lv_revert_without_vg_never_merges name (w : world H) :
  exists e,
    fst (lv_revert H name None w) = Raise e /\
    commands (trace (snd (lv_revert H name None w)))
    = commands (trace w) ++ [["lvs"; "--noheadings"; "-o"; "name,vg_name"]].
Proof.
  destruct (lv_get_without_vg_raises name w) as (e & w' & E & Hc).
  exists e. rewrite (lv_revert_lookup_first _ _ _ _ _ E). split.
  - reflexivity.
  - exact Hc.
Qed.

End LvUtilsFacts.

(** ** The remote retry loop *)

Lemma count_app {A} (p : A -> bool) (l k : list A) :
  count p (l ++ k) = count p l + count p k.
Proof.
  unfold count. rewrite filter_app, length_app. reflexivity.
Qed.

Section RemoteFacts.

Variable R : Remote.
Variables (command : string) (check_exit_code : option bool).

(** A failed attempt, whatever was raised: the exception is logged, the
    loop sleeps, and goes on with one attempt less. *)
Lemma attempt_loop_failure n attempts (w : rworld R) e s1 d s2 :
  ssh_execute R command check_exit_code (rsys w) = (Raise e, s1) ->
  randint R 20 500 s1 = (d, s2) ->
  attempt_loop R (S n) attempts command check_exit_code w =
  attempt_loop R n (attempts - 1) command check_exit_code
    (mk_rworld (sshpool w) s2
       (rtrace w ++ [SshExec command check_exit_code; LogExn e; Sleep d])).
Proof.
  intros E D. cbn [attempt_loop].
  unfold try_except, bind, on_remote. rewrite E.
  unfold remit, modify, draw. cbn [rsys sshpool rtrace]. rewrite D.
  cbn [rsys sshpool rtrace]. repeat rewrite <- app_assoc. reflexivity.
Qed.

(** The loop raises nothing, keeps the pool, and only adds events; when
    it ends without a result the counter has gone down by the number of
    iterations. *)
Lemma attempt_loop_runs n attempts (w : rworld R) :
  exists r w' added,
    attempt_loop R n attempts command check_exit_code w = (Return r, w') /\
    sshpool w' = sshpool w /\
    rtrace w' = rtrace w ++ added /\
    (fst r = None -> snd r = (attempts - Z.of_nat n)%Z) /\
    (0 < n -> exists rest, added = SshExec command check_exit_code :: rest).
Proof.
  revert attempts w. induction n as [|n IH]; intros attempts w.
  - exists (None, attempts), w, []. cbn [attempt_loop ret fst snd].
    rewrite app_nil_r. repeat split; try lia.
  - destruct (ssh_execute R command check_exit_code (rsys w))
      as [[res|e] s1] eqn:E.
    + exists (Some res, (attempts - 1)%Z).
      eexists _, [SshExec command check_exit_code].
      cbn [attempt_loop]. unfold try_except, bind, on_remote. rewrite E.
      cbn [ret fst snd sshpool rtrace].
      repeat split; [discriminate | intros _; eexists; reflexivity].
    + destruct (randint R 20 500 s1) as [d s2] eqn:D.
      rewrite (attempt_loop_failure n attempts w e s1 d s2 E D).
      destruct (IH (attempts - 1)%Z
                   (mk_rworld (sshpool w) s2
                      (rtrace w ++ [SshExec command check_exit_code;
                                    LogExn e; Sleep d])))
        as (r & w' & added & Hrun & Hp & Ht & Hc & _).
      exists r, w',
        ([SshExec command check_exit_code; LogExn e; Sleep d] ++ added).
      split; [exact Hrun|]. split; [exact Hp|].
      split; [rewrite Ht; cbn [rtrace]; rewrite <- app_assoc; reflexivity|].
      split; [intros Hn; rewrite (Hc Hn); lia|].
      intros _. eexists. reflexivity.
Qed.

(** C2, as the code has it.  The loop treats every exception of an
    attempt alike, a non-zero exit of a delivered command as much as a
    transport failure: with budget left it logs the exception, sleeps,
    and executes the command again.  No exception of an attempt reaches
    the caller: [_run_ssh] returns the result of a later attempt or
    raises the [SSHException] that names the command and the budget. *)
Theorem run_ssh_retries_every_failure attempts (w : rworld R) e s0 s1 d s2 :
  sshpool w = true ->
  item R (rsys w) = (Return tt, s0) ->
  ssh_execute R command check_exit_code s0 = (Raise e, s1) ->
  randint R 20 500 s1 = (d, s2) ->
  (1 < attempts)%Z ->
  exists r w' rest,
    _run_ssh R command check_exit_code attempts w = (r, w') /\
    rtrace w' =
    rtrace w ++
    [PoolItem; SshExec command check_exit_code; LogExn e; Sleep d;
     SshExec command check_exit_code] ++ rest /\
    ((exists res, r = Return res) \/
     r = Raise (SSHException gave_up_message
                  (Some (mk_ssh_locals command check_exit_code 0
                                       attempts)))).
Proof.
  intros Hpool Hitem E D Hn.
  unfold _run_ssh. unfold bind at 1, get_world at 1. rewrite Hpool.
  cbn [negb]. unfold bind at 1, ret at 1.
  unfold try_except. unfold bind at 1. unfold on_remote at 1.
  rewrite Hitem. unfold leaving. unfold bind at 1.
  destruct (Z.to_nat attempts) as [|n] eqn:Hz; [lia|].
  destruct n as [|n]; [lia|].
  rewrite (attempt_loop_failure (S n) attempts
             (mk_rworld (sshpool w) s0 (rtrace w ++ [PoolItem]))
             e s1 d s2 E D).
  cbn [sshpool rtrace].
  destruct (attempt_loop_runs (S n) (attempts - 1)
              (mk_rworld (sshpool w) s2
                 ((rtrace w ++ [PoolItem]) ++
                  [SshExec command check_exit_code; LogExn e; Sleep d])))
    as (r & w' & added & Hrun & Hp & Ht & Hc & Hx).
  destruct (Hx ltac:(lia)) as [rest ->].
  rewrite Hrun. cbn [rtrace] in Ht.
  destruct r as [[res|] a].
  - unfold ret. eexists _, _, (rest ++ [PoolRelease]).
    split; [reflexivity|]. cbn [rtrace]. rewrite Ht.
    split; [|left; eexists; reflexivity].
    repeat rewrite <- app_assoc. reflexivity.
  - cbn [fst snd] in Hc. rewrite (Hc eq_refl).
    unfold raise, bind, remit, modify. cbn [rtrace sshpool rsys].
    eexists _, _, (rest ++ [PoolRelease] ++ [LogError _]).
    split; [reflexivity|]. cbn [rtrace]. rewrite Ht.
    split.
    + repeat rewrite <- app_assoc. reflexivity.
    + right. do 4 f_equal. lia.
Qed.

End RemoteFacts.

(** ** On concrete machines *)

(** C1.  On the usual machine, [update_volume_group_info] of the manager
    of [vg0] issues the [pvs] query, not a [vgs] one, copies the size and
    the free space of the first physical volume into [vg_size] and
    [vg_available_space], and raises [KeyError] at [lv_count]: the count
    and the uuid keep their initial values and no record is returned. *)
Theorem update_volume_group_info_key_error :
  update_volume_group_info demo (demo_world vg0_object) =
  (Raise (KeyError "lv_count"),
   @mk_world demo
     (mk_LVM "vg0" [] [] (PStr "10.00g") (PStr "5.00g") (PInt 0) PNone)
     ["vg0"; "vg1"]
     [Exec (pvs_query (Some "vg0"))]).
Proof.
  vm_compute. reflexivity.
Qed.

(** C2 fails on the code: the command is delivered and exits 1, which is
    an execution error; with a budget of 2 the loop logs it, sleeps, and
    executes the command a second time, and the caller gets the second
    result, not the error. *)
Lemma execution_error_is_retried :
  ssh_execute fails_once "lvremove -f vg0/lv1" (Some true) 0
  = (Raise rejected, 1)
  /\ is_execution_error rejected = true
  /\ _run_ssh fails_once "lvremove -f vg0/lv1" (Some true) 2
              (fresh_rworld fails_once 0)
     = (Return ("done", ""),
        @mk_rworld fails_once true 2
          [PoolNew; PoolItem;
           SshExec "lvremove -f vg0/lv1" (Some true);
           LogExn rejected; Sleep 20;
           SshExec "lvremove -f vg0/lv1" (Some true);
           PoolRelease]).
Proof.
  repeat split.
Qed.

Lemma run_ssh_retries_every_failure_witness :
  is_execution_error rejected = true
  /\ ssh_execute fails_once "lvremove -f vg0/lv1" (Some true) 0
     = (Raise rejected, 1)
  /\ exists r w' rest,
       _run_ssh fails_once "lvremove -f vg0/lv1" (Some true) 2
                (@mk_rworld fails_once true 0 []) = (r, w') /\
       rtrace w' =
       [] ++
       [PoolItem; SshExec "lvremove -f vg0/lv1" (Some true);
        LogExn rejected; Sleep 20;
        SshExec "lvremove -f vg0/lv1" (Some true)] ++ rest /\
       ((exists res, r = Return res) \/
        r = Raise (SSHException gave_up_message
                     (Some (mk_ssh_locals "lvremove -f vg0/lv1" (Some true)
                                          0 2)))).
Proof.
  split; [reflexivity|]. split; [reflexivity|].
  apply (run_ssh_retries_every_failure fails_once "lvremove -f vg0/lv1"
           (Some true) 2 (@mk_rworld fails_once true 0 []) rejected 0 1 20 1);
    reflexivity.
Defined.

(** C3 fails on the code: the inventory of [vg0] has no volume named
    [ghost], and [revert("ghost")] issues the merge request all the same,
    as its first and only command; the failure it reports is the one of
    that command. *)
Lemma revert_of_unknown_name_issues_merge :
  fst (get_volume demo "ghost" (demo_world vg0_object)) = Return None
  /\ commands (trace (snd (revert demo "ghost" (demo_world vg0_object))))
     = [merge_request "ghost"]
  /\ existsb is_merge
       (commands (trace (snd (revert demo "ghost" (demo_world vg0_object)))))
     = true
  /\ fst (revert demo "ghost" (demo_world vg0_object))
     = Raise (ProcessExecutionError 5 "  Failed to find logical volume"
                "lvconvert --merge ghost").
Proof.
  repeat split.
Qed.

(** C4 fails on the code: the first line of this [lvs] output has two
    fields, and the records come back with the group of the second line
    as the size of the first volume; this [pvs] line has five fields, and
    the record comes back without the fifth. *)
Lemma ragged_lines_are_not_refused :
  (In ("  vg0 lv1")%string (PyStr.lines ragged_lvs)
   /\ length (PyStr.split_ws "  vg0 lv1") = 2
   /\ fst (get_all_volumes ragged None ragged_world)
      = Return [[("vg", "vg0"); ("name", "lv1"); ("size", "vg0")]])
  /\
  (In ("  vg0:/dev/sda1:10.00g:5.00g:extra")%string (PyStr.lines long_pv)
   /\ length (PyStr.split_on ":" "  vg0:/dev/sda1:10.00g:5.00g:extra") = 5
   /\ fst (get_all_physical_volumes ragged None ragged_world)
      = Return [[("vg", "vg0"); ("name", "/dev/sda1"); ("size", "10.00g");
                 ("available", "5.00g")]]).
Proof.
  repeat split; left; reflexivity.
Qed.

Lemma inventory_parsing_is_positional_witness :
  execute ragged (lvs_query None) (sys ragged_world)
  = (Return (ragged_lvs, ""), ["vg0"])
  /\ execute ragged (pvs_query None) (sys ragged_world)
     = (Return (long_pv, ""), ["vg0"])
  /\ fst (get_all_physical_volumes ragged None ragged_world)
     = Return [first_four "vg0:/dev/sda1:10.00g:5.00g:extra"].
Proof.
  split; [reflexivity|]. split; [reflexivity|].
  exact (proj2 (inventory_parsing_is_positional ragged None ragged_world
                  ragged_lvs "" ["vg0"] long_pv "" ["vg0"]
                  eq_refl eq_refl)).
Defined.

Lemma construction_verifies_vg_witness :
  reaches_check demo "vg9" false None ["vg0"] ["vg0"]
  /\ execute demo vgs_query ["vg0"] = (Return (vgs_output ["vg0"], ""), ["vg0"])
  /\ PyStr.mem "vg9" (PyStr.split_ws (vgs_output ["vg0"])) = false
  /\ fst (new_LVM demo "vg9" false None ["vg0"]) = Raise (not_found "vg9").
Proof.
  split; [reflexivity|]. split; [reflexivity|]. split; [reflexivity|].
  rewrite (construction_verifies_vg demo "vg9" false None
             ["vg0"] ["vg0"] ["vg0"] (vgs_output ["vg0"]) ""
             eq_refl eq_refl).
  reflexivity.
Defined.

Lemma create_lv_snapshot_checks_source_witness :
  execute demo ["lvs"; "--noheadings"; "-o"; "vg_name,name,size"; "vg0"]
          ["vg0"; "vg1"]
  = (Return (two_lvs, ""), ["vg0"; "vg1"])
  /\ create_lv_snapshot demo "snap" "lv1" "default" (demo_world vg0_object)
     = (Return PNone,
        @mk_world demo (set_lv_list (inventory two_lvs) vg0_object)
          ["vg0"; "vg1"]
          [Exec ["lvs"; "--noheadings"; "-o"; "vg_name,name,size"; "vg0"];
           Exec ["lvcreate"; "--name"; "snap"; "--snapshot"; "vg0/lv1";
                 "-L"; "1.00g"]])
  /\ create_lv_snapshot demo "snap" "lv1" "thin" (demo_world vg0_object)
     = (Return PNone,
        @mk_world demo (set_lv_list (inventory two_lvs) vg0_object)
          ["vg0"; "vg1"]
          [Exec ["lvs"; "--noheadings"; "-o"; "vg_name,name,size"; "vg0"];
           Exec ["lvcreate"; "--name"; "snap"; "--snapshot"; "vg0/lv1"]])
  /\ create_lv_snapshot demo "snap" "lv9" "default" (demo_world vg0_object)
     = (Return (PBool false),
        @mk_world demo (set_lv_list (inventory two_lvs) vg0_object)
          ["vg0"; "vg1"]
          [Exec ["lvs"; "--noheadings"; "-o"; "vg_name,name,size"; "vg0"];
           LogError "FAIL"])
  /\ existsb is_snapshot_create
       (commands (trace (snd (create_lv_snapshot demo "snap" "lv9" "default"
                                (demo_world vg0_object))))) = false.
Proof.
  split; [reflexivity|].
  split.
  { destruct (create_lv_snapshot_checks_source demo "snap" "lv1" "default"
                (demo_world vg0_object) two_lvs "" ["vg0"; "vg1"] eq_refl)
      as (size & Hs & E).
    injection Hs as <-. rewrite E. reflexivity. }
  split.
  { destruct (create_lv_snapshot_checks_source demo "snap" "lv1" "thin"
                (demo_world vg0_object) two_lvs "" ["vg0"; "vg1"] eq_refl)
      as (size & Hs & E).
    rewrite E. reflexivity. }
  pose proof (create_lv_snapshot_checks_source demo "snap" "lv9" "default"
                (demo_world vg0_object) two_lvs "" ["vg0"; "vg1"] eq_refl)
    as E.
  split; [exact E | rewrite E; reflexivity].
Defined.

Lemma get_volume_exact_lookup_witness :
  execute demo ["lvs"; "--noheadings"; "-o"; "vg_name,name,size"; "vg0"]
          ["vg0"; "vg1"]
  = (Return (two_lvs, ""), ["vg0"; "vg1"])
  /\ get_volume demo "lv2" (demo_world vg0_object)
     = (Return (Some [("vg", "vg0"); ("name", "lv2"); ("size", "2.00g")]),
        @mk_world demo (set_lv_list (inventory two_lvs) vg0_object)
          ["vg0"; "vg1"]
          [Exec ["lvs"; "--noheadings"; "-o"; "vg_name,name,size"; "vg0"]])
  /\ fst (get_volume demo "lv" (demo_world vg0_object)) = Return None.
Proof.
  split; [reflexivity|]. split.
  - rewrite (proj1 (get_volume_exact_lookup demo "lv2" (demo_world vg0_object)
                      two_lvs "" ["vg0"; "vg1"] eq_refl)).
    reflexivity.
  - rewrite (proj1 (get_volume_exact_lookup demo "lv" (demo_world vg0_object)
                      two_lvs "" ["vg0"; "vg1"] eq_refl)).
    reflexivity.
Defined.

(** * Further properties *)

(** ** The manager *)

Section BrickMore.

Variable H : Host.

Ltac run_brick :=
  unfold new_LVM, __init__, _create_vg, _vg_exists, create_lv_snapshot,
    get_volume, get_volumes, get_all_volumes, get_physical_volumes,
    get_all_physical_volumes, delete, try_except, bind, update_self, get_self,
    putils_execute, log_error, emit, modify, raise, ret;
  cbn [self sys trace set_pv_list set_lv_list vg_name fst snd].

(** X2.  When the group is to be created and [vgcreate] fails, the
    constructor logs the failed initialization and raises the error of
    [vgcreate]; the [vgs] check is never run and no instance comes back. *)
Theorem failed_vgcreate_stops_construction name pvs (s s1 : hstate H) e :
  execute H (vgcreate_request name pvs) s = (Raise e, s1) ->
  new_LVM H name true (Some pvs) s =
  (Raise e,
   mk_world (initialised name true (Some pvs)) s1
     [Exec (vgcreate_request name pvs);
      LogError "Failed initialization create Volume Group."]).
Proof.
  intros E. unfold vgcreate_request in *. run_brick. rewrite E. reflexivity.
Qed.

(** X3.  [get_volumes] and [get_physical_volumes] return what they store:
    after a call that returns, the list returned is the one in [lv_list]
    (in [pv_list]) and nothing else of the object has changed; after a
    call that raises, be it the command that failed or a short line of
    [pvs], the object is as it was, old lists included. *)
Theorem refresh_returns_what_it_stores (w : world H) :
  match get_volumes H w with
  | (Return l, w') => self w' = set_lv_list l (self w)
  | (Raise _, w') => self w' = self w
  end
  /\
  match get_physical_volumes H w with
  | (Return l, w') =>
      self w' = set_pv_list l (self w) /\
      exists records, l = map PDict records
  | (Raise _, w') => self w' = self w
  end.
Proof.
  split.
  - run_brick.
    destruct (execute H _ (sys w)) as [[oe|e] s1]; reflexivity.
  - unfold get_physical_volumes, get_all_physical_volumes, bind, get_self,
      putils_execute.
    destruct (execute H _ (sys w)) as [[oe|e] s1]; [|reflexivity].
    rewrite for_each_pv_record_run.
    destruct (forallb four_fields (PyStr.split_ws (fst oe))).
    + unfold update_self, modify, ret. cbn [self].
      split; [reflexivity | eexists; reflexivity].
    + reflexivity.
Qed.

(** X4.  [delete(name)] looks nothing up: its one command is
    [lvremove -f vg/name] for the group of the object, and it fails
    exactly when that command fails, with the command's error. *)
Theorem delete_issues_lvremove_unchecked name (w : world H) :
  let cmd := ["lvremove"; "-f"; (vg_name (self w) ++ "/" ++ name)%string] in
  trace (snd (delete H name w)) = trace w ++ [Exec cmd]
  /\ self (snd (delete H name w)) = self w
  /\ fst (delete H name w) =
     match fst (execute H cmd (sys w)) with
     | Return _ => Return tt
     | Raise e => Raise e
     end.
Proof.
  intros cmd. subst cmd. run_brick.
  destruct (execute H _ (sys w)) as [[oe|e] s1]; repeat split.
Qed.

(** X5.  When the [lvs] query itself fails, [get_volume] and
    [create_lv_snapshot] raise its error at once: nothing is logged, no
    snapshot is requested and [lv_list] keeps its old content. *)
Theorem inventory_failure_propagates name source kind (w : world H) e s1 :
  execute H (lvs_query (Some (vg_name (self w)))) (sys w) = (Raise e, s1) ->
  let w' := mk_world (self w) s1
              (trace w ++ [Exec (lvs_query (Some (vg_name (self w))))]) in
  get_volume H name w = (Raise e, w')
  /\ create_lv_snapshot H name source kind w = (Raise e, w').
Proof.
  intros E w'. subst w'. unfold lvs_query in *. run_brick.
  cbn [with_vg] in *. rewrite E. split; reflexivity.
Qed.

(** X6.  [create_lv_snapshot] never returns a true value.  It returns
    [False] exactly when it stopped after the [lvs] query, and [None]
    exactly when a snapshot create followed the query and succeeded: a
    caller cannot tell the two by truth value. *)
Theorem create_lv_snapshot_returns_falsy name source kind (w w' : world H) v :
  create_lv_snapshot H name source kind w = (Return v, w') ->
  truthy v = false
  /\ ((v = PBool false /\
       commands (trace w')
       = commands (trace w) ++ [lvs_query (Some (vg_name (self w)))])
      \/
      (v = PNone /\
       exists cmd,
         is_snapshot_create cmd = true /\
         commands (trace w')
         = commands (trace w) ++ [lvs_query (Some (vg_name (self w))); cmd])).
Proof.
  unfold create_lv_snapshot. unfold bind at 1.
  destruct (execute H (lvs_query (Some (vg_name (self w)))) (sys w))
    as [[[out err]|e] s1] eqn:E.
  - rewrite (get_volume_run H source w out err s1 E).
    destruct (find (named source) (inventory out)) as [r|] eqn:F.
    + pose proof (find_some _ _ F) as [Hin _].
      destruct (inventory_record _ _ Hin) as (vg & n & sz & ->).
      unfold bind, get_self, dict_item, ret, putils_execute.
      cbn [self sys trace set_lv_list vg_name dict_lookup].
      destruct (String.eqb kind "thin"); cbn [negb];
        cbn [dict_lookup String.eqb Ascii.eqb Bool.eqb self sys trace];
        match goal with
        | |- context [execute H ?c s1] =>
            destruct (execute H c s1) as [[oe|x] s2]
        end;
        intros R; inversion R; subst; clear R;
        (split; [reflexivity|]); right; (split; [reflexivity|]);
        eexists; (split; [|cbn [trace]; rewrite !commands_app; cbn [commands];
                           rewrite <- app_assoc; reflexivity]);
        cbn [is_snapshot_create app PyStr.mem existsb];
        rewrite String.eqb_refl;
        destruct (String.eqb "--snapshot" "--name");
        destruct (String.eqb "--snapshot" name); reflexivity.
    + unfold bind, log_error, emit, modify, ret. cbn [self sys trace].
      intros R. inversion R; subst.
      split; [reflexivity|]. left. split; [reflexivity|].
      cbn [trace]. rewrite !commands_app. cbn [commands].
      rewrite <- app_assoc. reflexivity.
  - unfold lvs_query in E. run_brick. cbn [with_vg] in *.
    rewrite E. discriminate.
Qed.

End BrickMore.

(** ** Listings and what is read from them *)

Lemma string_app_assoc (a b c : string) :
  ((a ++ b) ++ c)%string = (a ++ b ++ c)%string.
Proof.
  induction a as [|x a IH]; cbn; [reflexivity | now rewrite IH].
Qed.

Lemma string_app_nil_r (a : string) : (a ++ "")%string = a.
Proof.
  induction a as [|x a IH]; cbn; [reflexivity | now rewrite IH].
Qed.

Lemma snoc_app (cur : string) (c : ascii) (r : string) :
  (PyStr.snoc cur c ++ r)%string = (cur ++ String c r)%string.
Proof.
  unfold PyStr.snoc. now rewrite string_app_assoc.
Qed.

Lemma app_not_empty (a b : string) :
  String.eqb a "" = false -> String.eqb (a ++ b) "" = false.
Proof.
  destruct a; [discriminate | reflexivity].
Qed.

Lemma split_ws_word (a cur rest : string) :
  no_space a = true ->
  PyStr.split_ws_from cur (a ++ rest)
  = PyStr.split_ws_from (cur ++ a) rest.
Proof.
  revert cur. induction a as [|c a IH]; intros cur Ha.
  - now rewrite string_app_nil_r.
  - cbn in Ha. apply andb_prop in Ha. destruct Ha as [Hc Ha].
    cbn [append PyStr.split_ws_from].
    apply negb_true_iff in Hc. rewrite Hc.
    rewrite (IH _ Ha), snoc_app. reflexivity.
Qed.

Lemma split_ws_skip (g rest : string) :
  all_space g = true ->
  PyStr.split_ws_from "" (g ++ rest) = PyStr.split_ws_from "" rest.
Proof.
  induction g as [|c g IH]; intros Hg.
  - reflexivity.
  - cbn in Hg. apply andb_prop in Hg. destruct Hg as [Hc Hg].
    cbn [append PyStr.split_ws_from]. rewrite Hc. cbn. exact (IH Hg).
Qed.

Lemma split_ws_flush (cur g rest : string) :
  is_gap g = true -> String.eqb cur "" = false ->
  PyStr.split_ws_from cur (g ++ rest) = cur :: PyStr.split_ws_from "" rest.
Proof.
  unfold is_gap. intros Hg Hcur. destruct g as [|c g]; [discriminate|].
  cbn in Hg. apply andb_prop in Hg. destruct Hg as [Hc Hg].
  cbn [append PyStr.split_ws_from]. rewrite Hc, Hcur.
  now rewrite (split_ws_skip g rest Hg).
Qed.

(** A word and the gap after it give one token. *)
Lemma split_ws_word_gap (a g rest : string) :
  is_word a = true -> is_gap g = true ->
  PyStr.split_ws_from "" (a ++ g ++ rest)
  = a :: PyStr.split_ws_from "" rest.
Proof.
  unfold is_word. intros Ha Hg. apply andb_prop in Ha.
  destruct Ha as [Hne Ha]. apply negb_true_iff in Hne.
  rewrite (split_ws_word a "" _ Ha). cbn [append].
  exact (split_ws_flush a g rest Hg Hne).
Qed.

Lemma padding_is_gap (p : string) :
  all_space p = true -> is_gap (p ++ nl) = true.
Proof.
  intros Hp. unfold is_gap.
  assert (A : all_space (p ++ nl) = true).
  { induction p as [|c p IH]; [reflexivity|].
    cbn in Hp. apply andb_prop in Hp. destruct Hp as [Hc Hp].
    cbn [append all_space]. now rewrite Hc, (IH Hp). }
  rewrite A. destruct p; reflexivity.
Qed.

Lemma inventory_of_listing (l : list lvs_line) :
  forallb line_ok l = true ->
  inventory (lvs_listing l) = map lv_record (map line_fields l).
Proof.
  unfold inventory, PyStr.split_ws.
  induction l as [|x l IH]; intros Hl.
  - reflexivity.
  - cbn [forallb] in Hl. apply andb_prop in Hl. destruct Hl as [Hx Hl].
    unfold line_ok in Hx.
    repeat (apply andb_prop in Hx; let K := fresh "K" in destruct Hx as [Hx K]).
    cbn [lvs_listing].
    rewrite (split_ws_skip (l_indent x) _ Hx).
    rewrite (split_ws_word_gap (l_vg x) (l_gap1 x) _ K4 K3).
    rewrite (split_ws_word_gap (l_name x) (l_gap2 x) _ K2 K1).
    rewrite <- (string_app_assoc (l_padding x) nl).
    rewrite (split_ws_word_gap (l_size x) (l_padding x ++ nl) _ K0
               (padding_is_gap _ K)).
    cbn [izip3 map line_fields]. rewrite (IH Hl). reflexivity.
Qed.

Lemma split_on_field (a cur rest : string) :
  no_colon a = true ->
  PyStr.split_on_from ":" cur (a ++ rest)
  = PyStr.split_on_from ":" (cur ++ a) rest.
Proof.
  revert cur. induction a as [|c a IH]; intros cur Ha.
  - now rewrite string_app_nil_r.
  - cbn in Ha. apply andb_prop in Ha. destruct Ha as [Hc Ha].
    cbn [append PyStr.split_on_from].
    apply negb_true_iff in Hc. rewrite Hc.
    rewrite (IH _ Ha), snoc_app. reflexivity.
Qed.

(** Cutting a joined row at the colons gives the row back. *)
Lemma split_on_join (a : string) (row : list string) (cur : string) :
  forallb no_colon (a :: row) = true ->
  PyStr.split_on_from ":" cur (PyStr.join ":" (a :: row))
  = (cur ++ a)%string :: row.
Proof.
  revert a cur. induction row as [|b row IH]; intros a cur Hr.
  - cbn [PyStr.join]. cbn in Hr. rewrite andb_true_r in Hr.
    rewrite <- (string_app_nil_r a) at 1.
    rewrite (split_on_field a cur "" Hr). reflexivity.
  - cbn [forallb] in Hr. apply andb_prop in Hr. destruct Hr as [Ha Hr].
    change (PyStr.join ":" (a :: b :: row))
      with (a ++ String ":" (PyStr.join ":" (b :: row)))%string.
    rewrite (split_on_field a cur _ Ha).
    cbn [PyStr.split_on_from Ascii.eqb Bool.eqb].
    rewrite (IH b "" Hr). reflexivity.
Qed.

Lemma no_space_app (a b : string) :
  no_space (a ++ b) = no_space a && no_space b.
Proof.
  induction a as [|c a IH]; cbn; [reflexivity|].
  rewrite IH. now rewrite andb_assoc.
Qed.

Lemma no_space_join (row : list string) :
  forallb no_space row = true -> no_space (PyStr.join ":" row) = true.
Proof.
  induction row as [|a [|b row] IH]; intros Hr.
  - reflexivity.
  - cbn in *. now rewrite andb_true_r in Hr.
  - cbn [forallb] in Hr. apply andb_prop in Hr. destruct Hr as [Ha Hr].
    change (PyStr.join ":" (a :: b :: row))
      with (a ++ String ":" (PyStr.join ":" (b :: row)))%string.
    rewrite no_space_app, Ha. cbn [no_space andb].
    rewrite (IH Hr). reflexivity.
Qed.

Lemma row_fields (row : list string) :
  forallb is_field row = true ->
  forallb no_space row = true /\ forallb no_colon row = true.
Proof.
  induction row as [|a row IH]; intros Hr; [split; reflexivity|].
  cbn [forallb] in *. apply andb_prop in Hr. destruct Hr as [Ha Hr].
  unfold is_field in Ha. apply andb_prop in Ha. destruct Ha as [Hs Hc].
  destruct (IH Hr) as [Is Ic]. rewrite Hs, Hc, Is, Ic. split; reflexivity.
Qed.

Lemma row_is_word (row : list string) :
  is_row row = true -> is_word (PyStr.join ":" row) = true.
Proof.
  unfold is_row, is_word. intros Hr. apply andb_prop in Hr.
  destruct Hr as [Hl Hf]. destruct (row_fields row Hf) as [Hs _].
  rewrite (no_space_join row Hs), andb_true_r.
  destruct row as [|a [|b row]]; try discriminate.
  change (PyStr.join ":" (a :: b :: row))
    with (a ++ String ":" (PyStr.join ":" (b :: row)))%string.
  destruct a; reflexivity.
Qed.

Lemma tokens_of_colon_listing gap (rows : list (list string)) :
  is_gap gap = true -> forallb is_row rows = true ->
  PyStr.split_ws (colon_listing gap rows) = map (PyStr.join ":") rows.
Proof.
  intros Hg. unfold PyStr.split_ws.
  assert (Gs : all_space gap = true).
  { unfold is_gap in Hg. apply andb_prop in Hg. tauto. }
  induction rows as [|row rows IH]; intros Hr.
  - reflexivity.
  - cbn [forallb] in Hr. apply andb_prop in Hr. destruct Hr as [Hrow Hr].
    cbn [colon_listing map].
    rewrite (split_ws_skip gap _ Gs).
    rewrite (split_ws_word_gap _ nl _ (row_is_word row Hrow) eq_refl).
    rewrite (IH Hr). reflexivity.
Qed.

Lemma split_row (row : list string) :
  is_row row = true -> PyStr.split_on ":" (PyStr.join ":" row) = row.
Proof.
  unfold is_row. intros Hr. apply andb_prop in Hr. destruct Hr as [Hl Hf].
  destruct (row_fields row Hf) as [_ Hc].
  destruct row as [|a row]; [discriminate|].
  unfold PyStr.split_on. rewrite (split_on_join a row "" Hc). reflexivity.
Qed.

Section Listings.

Variable H : Host.

(** X7.  Reading back a listing.  When [lvs] prints a line per volume,
    group, name and size being words with white space of any width before,
    between and after them, [get_all_volumes] returns one record per line,
    in order, with those three fields; it has run the one query and
    changed nothing in the object. *)
Theorem get_all_volumes_reads_listing vg (w : world H) l err s1 :
  let q := match vg with
           | Some v => ["lvs"; "--noheadings"; "-o"; "vg_name,name,size"; v]
           | None => ["lvs"; "--noheadings"; "-o"; "vg_name,name,size"]
           end in
  forallb line_ok l = true ->
  execute H q (sys w) = (Return (lvs_listing l, err), s1) ->
  get_all_volumes H vg w =
  (Return (map lv_record (map line_fields l)),
   mk_world (self w) s1 (trace w ++ [Exec q])).
Proof.
  intros q Hl E.
  assert (Q : q = lvs_query vg) by (destruct vg; reflexivity).
  rewrite Q in *.
  rewrite (get_all_volumes_run H vg w _ err s1 E).
  now rewrite (inventory_of_listing l Hl).
Qed.

(** X8.  A volume that [lvs] lists is found: [get_volume(name)] returns a
    record with that name, the first one listed under it, and after the
    call the records of all the lines are in [lv_list]. *)
Theorem listed_volume_is_found name (w : world H) l err s1 x :
  forallb line_ok l = true ->
  execute H ["lvs"; "--noheadings"; "-o"; "vg_name,name,size";
             vg_name (self w)] (sys w)
  = (Return (lvs_listing l, err), s1) ->
  In x l ->
  l_name x = name ->
  exists r w',
    get_volume H name w = (Return (Some r), w') /\
    dict_lookup "name" r = Some name /\
    lv_list (self w') = map lv_record (map line_fields l) /\
    In r (lv_list (self w')) /\
    find (named name) (map lv_record (map line_fields l)) = Some r.
Proof.
  intros Hl E Hin Hname.
  change ["lvs"; "--noheadings"; "-o"; "vg_name,name,size"; vg_name (self w)]
    with (lvs_query (Some (vg_name (self w)))) in E.
  rewrite (get_volume_run H name w _ err s1 E).
  rewrite (inventory_of_listing l Hl).
  destruct (find (named name) (map lv_record (map line_fields l)))
    as [r|] eqn:F.
  - apply find_some in F. destruct F as [Fin Fn].
    eexists _, _. split; [reflexivity|].
    split; [|split; [reflexivity | split; [exact Fin | reflexivity]]].
    unfold named in Fn. destruct (dict_lookup "name" r) as [n|];
      [|discriminate].
    apply String.eqb_eq in Fn. now subst.
  - exfalso.
    pose proof (find_none _ _ F (lv_record (line_fields x))
                  (in_map lv_record _ _ (in_map line_fields _ _ Hin))) as N.
    unfold named, line_fields in N. cbn in N.
    rewrite Hname, String.eqb_refl in N. discriminate.
Qed.

End Listings.

Section ColonListings.

Variable H : Host.

Lemma pv_record_of_row t (w : world H) :
  is_row (pv_row t) = true ->
  pv_record H (PyStr.join ":" (pv_row t)) w = (Return (pv_dict t), w).
Proof.
  intros Hr. unfold pv_record. rewrite (split_row _ Hr).
  destruct t as [[[a b] c] d]. reflexivity.
Qed.

Lemma vg_record_of_row v (w : world H) :
  is_row (vg_row v) = true ->
  vg_record H (PyStr.join ":" (vg_row v)) w = (Return (vg_dict v), w).
Proof.
  intros Hr. unfold vg_record. rewrite (split_row _ Hr). reflexivity.
Qed.

Lemma for_each_rows {A} (row : A -> list string) (rec : A -> dict)
      (f : string -> M (world H) dict) (l : list A) (w : world H) :
  (forall t w0, is_row (row t) = true ->
                f (PyStr.join ":" (row t)) w0 = (Return (rec t), w0)) ->
  forallb is_row (map row l) = true ->
  for_each f (map (PyStr.join ":") (map row l)) w = (Return (map rec l), w).
Proof.
  intros Hf. induction l as [|t l IH]; intros Hl.
  - reflexivity.
  - cbn [map forallb] in Hl. apply andb_prop in Hl. destruct Hl as [Ht Hl].
    cbn [map for_each]. unfold bind at 1. rewrite (Hf t w Ht).
    unfold bind at 1. rewrite (IH Hl). reflexivity.
Qed.

(** X9.  When [pvs] prints a line per device, its four fields joined by
    colons and free of white space and colons (the group may be empty,
    as for a device in no group), [get_all_physical_volumes] returns one
    record per line, in order, with those four fields. *)
Theorem get_all_physical_volumes_reads_listing vg (w : world H) gap l err s1 :
  is_gap gap = true ->
  forallb is_row (map pv_row l) = true ->
  execute H (pvs_query vg) (sys w)
  = (Return (colon_listing gap (map pv_row l), err), s1) ->
  fst (get_all_physical_volumes H vg w) = Return (map pv_dict l).
Proof.
  intros Hg Hl E. unfold get_all_physical_volumes, bind, pvs_query in *.
  rewrite (putils_execute_run H _ _ _ _ E). cbn [fst].
  rewrite (tokens_of_colon_listing gap _ Hg Hl).
  rewrite (for_each_rows pv_row pv_dict (pv_record H) l _
             (fun t w0 => pv_record_of_row t w0) Hl).
  reflexivity.
Qed.

(** X10.  When [vgs] prints a line per group, name, size, free space,
    volume count and uuid joined by colons, [get_all_volume_groups]
    returns one record per line, in order, under the keys [name], [size],
    [available], [lv_count] and [uuid]. *)
Theorem get_all_volume_groups_reads_listing vg (w : world H) gap l err s1 :
  is_gap gap = true ->
  forallb is_row (map vg_row l) = true ->
  execute H (vgs_summary_query vg) (sys w)
  = (Return (colon_listing gap (map vg_row l), err), s1) ->
  fst (get_all_volume_groups H vg w) = Return (map vg_dict l).
Proof.
  intros Hg Hl E. unfold get_all_volume_groups, bind, vgs_summary_query in *.
  rewrite (putils_execute_run H _ _ _ _ E). cbn [fst].
  rewrite (tokens_of_colon_listing gap _ Hg Hl).
  rewrite (for_each_rows vg_row vg_dict (vg_record H) l _
             (fun t w0 => vg_record_of_row t w0) Hl).
  reflexivity.
Qed.

End ColonListings.

(** ** More on the remote retry loop *)

Section RemoteMore.

Variable R : Remote.
Variables (command : string) (check_exit_code : option bool).

Lemma attempt_loop_success m attempts pool s tr res s' :
  ssh_execute R command check_exit_code s = (Return res, s') ->
  attempt_loop R (S m) attempts command check_exit_code
               (@mk_rworld R pool s tr)
  = (Return (Some res, (attempts - 1)%Z),
     @mk_rworld R pool s' (tr ++ [SshExec command check_exit_code])).
Proof.
  intros E. cbn [attempt_loop]. unfold try_except, bind, on_remote.
  cbn [rsys sshpool rtrace]. rewrite E. reflexivity.
Qed.

Lemma attempt_loop_after_failures k s s' t :
  failed_attempts R command check_exit_code k s s' t ->
  forall m attempts pool tr,
    attempt_loop R (k + m) attempts command check_exit_code
                 (@mk_rworld R pool s tr)
    = attempt_loop R m (attempts - Z.of_nat k) command check_exit_code
                   (@mk_rworld R pool s' (tr ++ t)).
Proof.
  induction 1 as [s|k s e s1 d s2 s3 t E D F IH]; intros m attempts pool tr.
  - cbn [Nat.add]. rewrite Z.sub_0_r, app_nil_r. reflexivity.
  - cbn [Nat.add].
    rewrite (attempt_loop_failure R command check_exit_code (k + m) attempts
               (@mk_rworld R pool s tr) e s1 d s2 E D).
    cbn [sshpool rtrace]. rewrite IH. unfold failed_attempt.
    rewrite <- app_assoc.
    replace (attempts - 1 - Z.of_nat k)%Z
      with (attempts - Z.of_nat (S k))%Z by lia.
    reflexivity.
Qed.

(** The loop raises nothing and adds only its own events: at most as many
    executions as iterations, and no more sleeps than executions. *)
Lemma attempt_loop_events n attempts (w : rworld R) :
  exists r w' added,
    attempt_loop R n attempts command check_exit_code w = (Return r, w') /\
    sshpool w' = sshpool w /\
    rtrace w' = rtrace w ++ added /\
    forallb loop_event added = true /\
    count is_ssh_exec added <= n /\
    count is_sleep added <= count is_ssh_exec added /\
    (fst r = None -> snd r = (attempts - Z.of_nat n)%Z).
Proof.
  revert attempts w. induction n as [|n IH]; intros attempts w.
  - exists (None, attempts), w, []. cbn [attempt_loop ret fst snd].
    rewrite app_nil_r. repeat split; try reflexivity; try lia.
  - destruct (ssh_execute R command check_exit_code (rsys w))
      as [[res|e] s1] eqn:E.
    + destruct w as [pool s tr]. cbn [rsys] in E.
      rewrite (attempt_loop_success n attempts pool s tr res s1 E).
      eexists _, _, [SshExec command check_exit_code].
      split; [reflexivity|]. cbn.
      repeat split; try reflexivity; try lia. discriminate.
    + destruct (randint R 20 500 s1) as [d s2] eqn:D.
      rewrite (attempt_loop_failure R command check_exit_code n attempts
                 w e s1 d s2 E D).
      destruct (IH (attempts - 1)%Z
                   (mk_rworld (sshpool w) s2
                      (rtrace w ++ [SshExec command check_exit_code;
                                    LogExn e; Sleep d])))
        as (r & w' & added & Hrun & Hp & Ht & Hev & Hx & Hs & Hc).
      exists r, w',
        ([SshExec command check_exit_code; LogExn e; Sleep d] ++ added).
      split; [exact Hrun|]. split; [exact Hp|].
      split; [rewrite Ht; cbn [rtrace]; rewrite <- app_assoc; reflexivity|].
      split; [cbn [app forallb loop_event andb]; exact Hev|].
      rewrite !count_app. cbn.
      split; [lia|]. split; [lia|].
      intros Hn. rewrite (Hc Hn). lia.
Qed.

(** X11.  [_run_ssh] returns the result of the first attempt that works:
    after [k] failed attempts, with [k] below the budget, the next
    execution's result is returned, the trace holds the [k] failures (each
    logged and slept on), one more execution and the release of the
    session, and nothing is logged as an error of the call. *)
Theorem run_ssh_returns_first_success attempts (w : rworld R)
        k s0 s1 t res s2 :
  sshpool w = true ->
  item R (rsys w) = (Return tt, s0) ->
  failed_attempts R command check_exit_code k s0 s1 t ->
  ssh_execute R command check_exit_code s1 = (Return res, s2) ->
  (Z.of_nat k < attempts)%Z ->
  _run_ssh R command check_exit_code attempts w =
  (Return res,
   @mk_rworld R true s2
     (rtrace w ++ [PoolItem] ++ t ++
      [SshExec command check_exit_code; PoolRelease])).
Proof.
  intros Hpool Hitem F E Hk.
  unfold _run_ssh. unfold bind at 1, get_world at 1. rewrite Hpool.
  cbn [negb]. unfold bind at 1, ret at 1.
  unfold try_except. unfold bind at 1. unfold on_remote at 1.
  rewrite Hitem. unfold leaving. unfold bind at 1.
  replace (Z.to_nat attempts) with (k + S (Z.to_nat attempts - k - 1)) by lia.
  rewrite (attempt_loop_after_failures k s0 s1 t F).
  rewrite (attempt_loop_success _ _ _ _ _ res s2 E).
  unfold ret. cbn [rtrace sshpool rsys]. rewrite Hpool.
  repeat rewrite <- app_assoc. reflexivity.
Qed.

(** X12.  [_run_ssh] gives up after exactly as many attempts as its
    budget, whatever the budget: when that many attempts fail in a row it
    raises [SSHException] with the command and the budget, having
    released the session and logged the error of the call.  A budget of
    zero or less means no execution at all. *)
Theorem run_ssh_exhausts_budget attempts (w : rworld R) s0 s1 t :
  sshpool w = true ->
  item R (rsys w) = (Return tt, s0) ->
  failed_attempts R command check_exit_code (Z.to_nat attempts) s0 s1 t ->
  _run_ssh R command check_exit_code attempts w =
  (Raise (gave_up command check_exit_code (Z.min attempts 0) attempts),
   @mk_rworld R true s1
     (rtrace w ++ [PoolItem] ++ t ++
      [PoolRelease; ssh_error_line command])).
Proof.
  intros Hpool Hitem F.
  unfold _run_ssh. unfold bind at 1, get_world at 1. rewrite Hpool.
  cbn [negb]. unfold bind at 1, ret at 1.
  unfold try_except. unfold bind at 1. unfold on_remote at 1.
  rewrite Hitem. unfold leaving. unfold bind at 1.
  replace (Z.to_nat attempts) with (Z.to_nat attempts + 0) at 1 by lia.
  rewrite (attempt_loop_after_failures _ s0 s1 t F).
  cbn [attempt_loop]. unfold ret, raise, bind, remit, modify.
  cbn [rtrace sshpool rsys]. rewrite Hpool.
  unfold gave_up, ssh_error_line.
  replace (attempts - Z.of_nat (Z.to_nat attempts))%Z
    with (Z.min attempts 0) by lia.
  repeat rewrite <- app_assoc. reflexivity.
Qed.

(** X13.  The pool is built outside the guarded block: when building it
    fails, [_run_ssh] raises that error as it is, logs nothing, checks
    out no session, executes nothing, and leaves the pool unset, so that
    the next call builds it again. *)
Theorem failed_pool_construction_is_not_logged attempts (w : rworld R) e s' :
  sshpool w = false ->
  SSHPool R (rsys w) = (Raise e, s') ->
  _run_ssh R command check_exit_code attempts w =
  (Raise e, @mk_rworld R false s' (rtrace w ++ [PoolNew])).
Proof.
  intros Hpool E.
  unfold _run_ssh. unfold bind at 1, get_world at 1. rewrite Hpool.
  cbn [negb]. unfold bind, on_remote. rewrite E, Hpool. reflexivity.
Qed.

(** X14.  When no session can be checked out, the command is never
    executed and nothing is released: [_run_ssh] logs the error of the
    call and raises the error of the checkout. *)
Theorem failed_checkout_executes_nothing attempts (w : rworld R) e s' :
  sshpool w = true ->
  item R (rsys w) = (Raise e, s') ->
  _run_ssh R command check_exit_code attempts w =
  (Raise e,
   @mk_rworld R true s' (rtrace w ++ [PoolItem; ssh_error_line command])).
Proof.
  intros Hpool E.
  unfold _run_ssh. unfold bind at 1, get_world at 1. rewrite Hpool.
  cbn [negb]. unfold bind at 1, ret at 1.
  unfold try_except. unfold bind at 1. unfold on_remote at 1. rewrite E.
  unfold bind, remit, modify, raise, ssh_error_line.
  cbn [rtrace sshpool rsys]. rewrite Hpool, <- app_assoc. reflexivity.
Qed.

(** X15.  The shape of every call that got a session.  Between the
    checkout and the release there are only executions, logged exceptions
    and sleeps: at most as many executions as the budget and no more
    sleeps than executions.  The session is released exactly once, after
    the last execution, whether the call returns or raises; the error
    line of the call is logged exactly when it raises; no pool is built
    and the pool stays set. *)
Theorem run_ssh_releases_once attempts (w : rworld R) s0 :
  sshpool w = true ->
  item R (rsys w) = (Return tt, s0) ->
  exists r w' body,
    _run_ssh R command check_exit_code attempts w = (r, w') /\
    rtrace w' =
    rtrace w ++ [PoolItem] ++ body ++ [PoolRelease] ++ closing r command /\
    forallb loop_event body = true /\
    count is_ssh_exec body <= Z.to_nat attempts /\
    count is_sleep body <= count is_ssh_exec body /\
    sshpool w' = true.
Proof.
  intros Hpool Hitem.
  unfold _run_ssh. unfold bind at 1, get_world at 1. rewrite Hpool.
  cbn [negb]. unfold bind at 1, ret at 1.
  unfold try_except. unfold bind at 1. unfold on_remote at 1.
  rewrite Hitem. unfold leaving. unfold bind at 1.
  destruct (attempt_loop_events (Z.to_nat attempts) attempts
              (mk_rworld (sshpool w) s0 (rtrace w ++ [PoolItem])))
    as (r & w' & body & Hrun & Hp & Ht & Hev & Hx & Hs & _).
  rewrite Hrun. cbn [sshpool rtrace] in Hp, Ht.
  destruct r as [[res|] a].
  - eexists (Return res), _, body. unfold ret.
    split; [reflexivity|]. cbn [rtrace sshpool closing].
    rewrite Ht, Hp, Hpool, app_nil_r.
    repeat split; try assumption.
    repeat rewrite <- app_assoc. reflexivity.
  - eexists (Raise _), _, body.
    unfold raise, bind, remit, modify. cbn [rtrace sshpool rsys].
    split; [reflexivity|]. cbn [rtrace sshpool closing].
    rewrite Ht, Hp, Hpool.
    repeat split; try assumption.
    unfold ssh_error_line. repeat rewrite <- app_assoc. reflexivity.
Qed.

End RemoteMore.

Section RemoteBudget.

Variable R : Remote.
Variables (command : string) (check_exit_code : option bool).

Lemma failed_attempts_counts k s s' t :
  failed_attempts R command check_exit_code k s s' t ->
  count is_ssh_exec t = k /\ count is_sleep t = k.
Proof.
  induction 1 as [s|k s e s1 d s2 s3 t E D F [IHx IHs]].
  - split; reflexivity.
  - unfold failed_attempt. rewrite !count_app, IHx, IHs. split; reflexivity.
Qed.

Lemma session_events_counts pool :
  count is_ssh_exec (session_events pool) = 0
  /\ count is_sleep (session_events pool) = 0.
Proof.
  destruct pool; split; reflexivity.
Qed.

(** C5, as the code has it.  Provided the call gets a session (the pool is
    there or is built now, and the checkout works), with a budget of 3 and
    three attempts failing in a row [_run_ssh] executes the command exactly
    three times, sleeping after each failure, releases the session, logs
    the error of the call and raises [SSHException], whose arguments hold
    the command and [total_attempts = 3]. *)
Theorem run_ssh_three_attempts_with_session (w : rworld R) s0 s1 t :
  obtains_session R w s0 ->
  failed_attempts R command check_exit_code 3 s0 s1 t ->
  _run_ssh R command check_exit_code 3 w =
  (Raise (SSHException gave_up_message
            (Some (mk_ssh_locals command check_exit_code 0 3))),
   @mk_rworld R true s1
     (rtrace w ++ session_events (sshpool w) ++ t ++
      [PoolRelease; ssh_error_line command]))
  /\ count is_ssh_exec (rtrace (snd (_run_ssh R command check_exit_code 3 w)))
     = count is_ssh_exec (rtrace w) + 3
  /\ count is_sleep (rtrace (snd (_run_ssh R command check_exit_code 3 w)))
     = count is_sleep (rtrace w) + 3.
Proof.
  intros Hsess F.
  assert (E : _run_ssh R command check_exit_code 3 w =
              (Raise (SSHException gave_up_message
                        (Some (mk_ssh_locals command check_exit_code 0 3))),
               @mk_rworld R true s1
                 (rtrace w ++ session_events (sshpool w) ++ t ++
                  [PoolRelease; ssh_error_line command]))).
  { unfold _run_ssh. unfold bind at 1, get_world at 1.
    unfold obtains_session in Hsess. unfold session_events.
    destruct (sshpool w) eqn:Hpool; cbn [negb].
    - unfold bind at 1, ret at 1.
      unfold try_except. unfold bind at 1. unfold on_remote at 1.
      rewrite Hsess. unfold leaving. unfold bind at 1.
      change (Z.to_nat 3) with (3 + 0).
      rewrite (attempt_loop_after_failures R command check_exit_code
                 3 s0 s1 t F).
      cbn [attempt_loop]. unfold ret, raise, bind, remit, modify.
      cbn [rtrace sshpool rsys Z.of_nat Pos.of_succ_nat Pos.succ Z.sub
           Z.opp Z.add Z.pos_sub Z.succ_double Z.pred_double Z.double
           Pos.pred_double app].
      rewrite Hpool. unfold ssh_error_line.
      repeat rewrite <- app_assoc. reflexivity.
    - destruct Hsess as (sp & Hnew & Hitem).
      unfold bind at 1. unfold bind at 1. unfold on_remote at 1.
      rewrite Hnew. unfold modify at 1. cbn [rsys rtrace].
      unfold try_except. unfold bind at 1. unfold on_remote at 1.
      cbn [rsys rtrace sshpool]. rewrite Hitem.
      unfold leaving. unfold bind at 1.
      change (Z.to_nat 3) with (3 + 0).
      rewrite (attempt_loop_after_failures R command check_exit_code
                 3 s0 s1 t F).
      cbn [attempt_loop]. unfold ret, raise, bind, remit, modify.
      cbn [rtrace sshpool rsys Z.of_nat Pos.of_succ_nat Pos.succ Z.sub
           Z.opp Z.add Z.pos_sub Z.succ_double Z.pred_double Z.double
           Pos.pred_double app].
      unfold ssh_error_line.
      repeat rewrite <- app_assoc. reflexivity. }
  split; [exact E|]. rewrite E. cbn [snd rtrace].
  destruct (failed_attempts_counts 3 s0 s1 t F) as [Hx Hs].
  destruct (session_events_counts (sshpool w)) as [Px Ps].
  rewrite !count_app, Hx, Hs, Px, Ps. cbn. split; lia.
Qed.

End RemoteBudget.

Section SanFacts.

Variable R : Remote.
Variable kwargs : Type.
Variable check_exit_code_of : kwargs -> option bool.
Variable utils_execute :
  list string -> kwargs -> rstate R -> outcome (string * string) * rstate R.

(** X16.  Over the remote side [san_execute] never retries: it joins the
    arguments with spaces and runs [_run_ssh] with the default budget of
    one.  The command is executed once; its result is returned, or its
    failure, whatever it is, is logged and slept on and the caller gets
    the [SSHException] of a budget of one. *)
Theorem san_execute_remote_single_attempt cmd kw (w : rworld R)
        s0 o s1 d s2 :
  sshpool w = true ->
  item R (rsys w) = (Return tt, s0) ->
  ssh_execute R (PyStr.join " " cmd) (check_exit_code_of kw) s0 = (o, s1) ->
  randint R 20 500 s1 = (d, s2) ->
  let command := PyStr.join " " cmd in
  let cec := check_exit_code_of kw in
  san_execute R kwargs check_exit_code_of utils_execute false cmd kw w =
  match o with
  | Return res =>
      (Return res,
       @mk_rworld R true s1
         (rtrace w ++ [PoolItem; SshExec command cec; PoolRelease]))
  | Raise e =>
      (Raise (gave_up command cec 0 1),
       @mk_rworld R true s2
         (rtrace w ++ [PoolItem; SshExec command cec; LogExn e; Sleep d;
                       PoolRelease; ssh_error_line command]))
  end.
Proof.
  intros Hpool Hitem E D command cec. subst command cec.
  unfold san_execute, _run_ssh. unfold bind at 1, get_world at 1.
  rewrite Hpool. cbn [negb]. unfold bind at 1, ret at 1.
  unfold try_except. unfold bind at 1. unfold on_remote at 1.
  rewrite Hitem. unfold leaving. unfold bind at 1.
  change (Z.to_nat 1) with 1. cbn [attempt_loop].
  unfold try_except, bind, on_remote. cbn [rsys sshpool rtrace].
  rewrite E. destruct o as [res|e].
  - unfold ret. cbn [rtrace sshpool rsys]. rewrite Hpool.
    repeat rewrite <- app_assoc. reflexivity.
  - unfold remit, modify, draw, ret, raise. cbn [rsys sshpool rtrace].
    rewrite D. cbn [rsys sshpool rtrace]. rewrite Hpool.
    unfold gave_up, ssh_error_line.
    repeat rewrite <- app_assoc. reflexivity.
Qed.

End SanFacts.

(** ** More on the module level helpers *)

Lemma tight_tail (a : ascii) (r : string) :
  tight (String a r) = true -> PyStr.is_space a = false -> tight r = true.
Proof.
  destruct r as [|b r]; [reflexivity|].
  cbn [tight]. intros T Ha. rewrite Ha in T. exact T.
Qed.

(** Inside a field, a tight text is read as it is. *)
Lemma re_split_tight (c cur rest : string) :
  tight c = true ->
  re_split_2ws_from (InField cur) (c ++ rest)
  = re_split_2ws_from (InField (cur ++ c)) rest.
Proof.
  assert (G : forall n c cur, String.length c <= n -> tight c = true ->
              re_split_2ws_from (InField cur) (c ++ rest)
              = re_split_2ws_from (InField (cur ++ c)) rest).
  { induction n as [|n IH]; intros c0 cur0 Hn T.
    - destruct c0; [|cbn in Hn; lia]. now rewrite string_app_nil_r.
    - destruct c0 as [|a r]; [now rewrite string_app_nil_r|].
      cbn [String.length] in Hn.
      destruct (PyStr.is_space a) eqn:Ha.
      + destruct r as [|b r'].
        * cbn [tight] in T. rewrite Ha in T. discriminate.
        * cbn [tight] in T. rewrite Ha in T.
          apply andb_prop in T. destruct T as [Hb T].
          apply negb_true_iff in Hb.
          cbn [append re_split_2ws_from]. rewrite Ha, Hb.
          cbn [String.length] in Hn.
          rewrite (IH r' _ ltac:(lia) (tight_tail b r' T Hb)).
          rewrite !snoc_app. reflexivity.
      + cbn [append re_split_2ws_from]. rewrite Ha.
        rewrite (IH r _ ltac:(lia) (tight_tail a r T Ha)).
        rewrite snoc_app. reflexivity. }
  intros T. exact (G (String.length c) c cur (le_n _) T).
Qed.

Lemma re_split_gap_skip (g rest : string) :
  all_space g = true ->
  re_split_2ws_from InGap (g ++ rest) = re_split_2ws_from InGap rest.
Proof.
  induction g as [|a g IH]; intros Hg; [reflexivity|].
  cbn in Hg. apply andb_prop in Hg. destruct Hg as [Ha Hg].
  cbn [append re_split_2ws_from]. rewrite Ha. exact (IH Hg).
Qed.

(** A wide gap ends the field. *)
Lemma re_split_wide_gap (g cur rest : string) :
  is_wide_gap g = true ->
  re_split_2ws_from (InField cur) (g ++ rest)
  = cur :: re_split_2ws_from InGap rest.
Proof.
  destruct g as [|a [|b g]]; try discriminate.
  cbn [is_wide_gap]. intros Hg. apply andb_prop in Hg.
  destruct Hg as [Hab Hg]. apply andb_prop in Hab. destruct Hab as [Ha Hb].
  cbn [append re_split_2ws_from]. rewrite Ha, Hb.
  now rewrite (re_split_gap_skip g rest Hg).
Qed.

(** After a gap, a cell and the wide gap behind it give one field. *)
Lemma re_split_cell (c g rest : string) :
  is_cell c = true -> is_wide_gap g = true ->
  re_split_2ws_from InGap (c ++ g ++ rest)
  = c :: re_split_2ws_from InGap rest.
Proof.
  destruct c as [|a r]; [discriminate|].
  cbn [is_cell]. intros Hc Hg. apply andb_prop in Hc.
  destruct Hc as [Ha T]. apply negb_true_iff in Ha.
  cbn [append re_split_2ws_from]. rewrite Ha.
  rewrite (re_split_tight r _ _ (tight_tail a r T Ha)). cbn [append].
  exact (re_split_wide_gap g _ rest Hg).
Qed.

Lemma re_split_shown (l : list shown) :
  forallb shown_ok l = true ->
  re_split_2ws_from InGap (shown_text l)
  = flat_pairs (map shown_pair l) ++ [""].
Proof.
  induction l as [|x l IH]; intros Hl.
  - reflexivity.
  - cbn [forallb] in Hl. apply andb_prop in Hl. destruct Hl as [Hx Hl].
    unfold shown_ok in Hx.
    repeat (apply andb_prop in Hx; let K := fresh "K" in destruct Hx as [Hx K]).
    cbn [shown_text map shown_pair flat_pairs app].
    rewrite (re_split_cell (d_label x) (d_pad x) _ Hx K1).
    rewrite (re_split_cell (d_value x) (d_break x) _ K0 K).
    rewrite (IH Hl). reflexivity.
Qed.

(** The fields of what [lvdisplay] prints: an empty one before the
    indent, the heading, the labels and values, an empty one at the end. *)
Lemma re_split_lvdisplay indent heading break (l : list shown) :
  is_wide_gap indent = true -> is_cell heading = true ->
  is_wide_gap break = true -> forallb shown_ok l = true ->
  re_split_2ws (lvdisplay_text indent heading break l)
  = "" :: heading :: flat_pairs (map shown_pair l) ++ [""].
Proof.
  intros Hi Hh Hb Hl. unfold re_split_2ws, lvdisplay_text.
  rewrite (re_split_wide_gap indent "" _ Hi).
  rewrite (re_split_cell heading break _ Hh Hb).
  rewrite (re_split_shown l Hl). reflexivity.
Qed.

Lemma pairs_padded_flat (l : list (string * string)) :
  pairs_padded (flat_pairs l) = some_values l.
Proof.
  induction l as [|[k v] l IH]; [reflexivity|].
  cbn [flat_pairs pairs_padded some_values map fst snd].
  now rewrite IH.
Qed.

Lemma ldict_lookup_set k k' v (d : ldict) :
  ldict_lookup k (ldict_set k' v d)
  = if String.eqb k k' then Some v else ldict_lookup k d.
Proof.
  induction d as [|[k0 v0] d IH].
  - cbn. reflexivity.
  - cbn [ldict_set]. destruct (String.eqb k' k0) eqn:E0.
    + apply String.eqb_eq in E0. subst k0. cbn [ldict_lookup].
      destruct (String.eqb k k'); reflexivity.
    + cbn [ldict_lookup]. rewrite IH.
      destruct (String.eqb k k0) eqn:E1; [|reflexivity].
      apply String.eqb_eq in E1. subst k0.
      rewrite String.eqb_sym, E0. reflexivity.
Qed.

(** A dict built from pairs answers with the last value of each key. *)
Lemma ldict_lookup_of_pairs k (l : list (string * string)) (d : ldict) :
  ldict_lookup k
    (fold_left (fun d kv => ldict_set (fst kv) (snd kv) d) (some_values l) d)
  = match last_bound k l with
    | Some v => Some (Some v)
    | None => ldict_lookup k d
    end.
Proof.
  revert d. induction l as [|[k' v] l IH]; intros d.
  - reflexivity.
  - cbn [some_values map fold_left fst snd last_bound].
    fold (some_values l). rewrite IH.
    destruct (last_bound k l); [reflexivity|].
    rewrite ldict_lookup_set. destruct (String.eqb k k'); reflexivity.
Qed.

Section LvUtilsMore.

Variable H : Host.

Lemma stops_at_get {B} name (k : ldict -> M (world H) B) (w : world H) :
  exists e,
    fst (bind (lv_get H name None) k w) = Raise e /\
    commands (trace (snd (bind (lv_get H name None) k w)))
    = commands (trace w) ++ [lvs_names_query].
Proof.
  destruct (lv_get_without_vg_raises H name w) as (e & w' & E & Hc).
  exists e. unfold bind. rewrite E. split; [reflexivity | exact Hc].
Qed.

(** X17.  Called without a group name, no helper of the module gets past
    [get]: [get_lsize], [delete] and [revert] raise after the one [lvs]
    query of [get], having asked for no size, removed and merged nothing;
    [create_snapshot], which never passes a group, does so on every call
    and never requests a snapshot. *)
Theorem helpers_without_group_stop_at_get name source kind suffix
        (w : world H) :
  (exists e,
      fst (get_lsize H name None suffix w) = Raise e /\
      commands (trace (snd (get_lsize H name None suffix w)))
      = commands (trace w) ++ [lvs_names_query])
  /\
  (exists e,
      fst (create_snapshot H name source kind w) = Raise e /\
      commands (trace (snd (create_snapshot H name source kind w)))
      = commands (trace w) ++ [lvs_names_query])
  /\
  (exists e,
      fst (lv_delete H name None w) = Raise e /\
      commands (trace (snd (lv_delete H name None w)))
      = commands (trace w) ++ [lvs_names_query])
  /\
  (exists e,
      fst (lv_revert H name None w) = Raise e /\
      commands (trace (snd (lv_revert H name None w)))
      = commands (trace w) ++ [lvs_names_query]).
Proof.
  repeat split; apply stops_at_get.
Qed.

Lemma lv_get_of_display name vg (w : world H) indent heading break l
      err s1 :
  is_wide_gap indent = true -> is_cell heading = true ->
  is_wide_gap break = true -> forallb shown_ok l = true ->
  execute H ["lvdisplay"; (vg ++ "/" ++ name)%string] (sys w)
  = (Return (lvdisplay_text indent heading break l, err), s1) ->
  lv_get H name (Some vg) w =
  (Return (dict_of_pairs (some_values (map shown_pair l))),
   mk_world (self w) s1
            (trace w ++ [Exec ["lvdisplay"; (vg ++ "/" ++ name)%string]])).
Proof.
  intros Hi Hh Hb Hl E. unfold lv_get, bind, ret.
  rewrite (putils_execute_run H _ _ _ _ E). cbn [fst].
  rewrite (re_split_lvdisplay indent heading break l Hi Hh Hb Hl).
  unfold del_last, del_first, ret.
  change ("" :: heading :: flat_pairs (map shown_pair l) ++ [""])
    with (("" :: heading :: flat_pairs (map shown_pair l)) ++ [""]).
  rewrite removelast_last. now rewrite pairs_padded_flat.
Qed.

(** X18.  Reading back what [lvdisplay] prints.  From a text of an
    indented heading and a labelled value per line, where the white space
    before the heading, after a label and around a line break is any run
    of two or more characters, [get] with a group name runs the one
    [lvdisplay] of [vg/name] and returns a dict that gives, for every
    label, the value printed last under it, and has no other key. *)
Theorem lv_get_reads_lvdisplay name vg (w : world H) indent heading break l
        err s1 :
  is_wide_gap indent = true -> is_cell heading = true ->
  is_wide_gap break = true -> forallb shown_ok l = true ->
  execute H ["lvdisplay"; (vg ++ "/" ++ name)%string] (sys w)
  = (Return (lvdisplay_text indent heading break l, err), s1) ->
  exists d,
    lv_get H name (Some vg) w =
    (Return d,
     mk_world (self w) s1
              (trace w ++ [Exec ["lvdisplay"; (vg ++ "/" ++ name)%string]]))
    /\
    forall k, ldict_lookup k d
              = option_map Some (last_bound k (map shown_pair l)).
Proof.
  intros Hi Hh Hb Hl E.
  eexists. split; [exact (lv_get_of_display _ _ _ _ _ _ _ _ _ Hi Hh Hb Hl E)|].
  intros k. unfold dict_of_pairs. rewrite ldict_lookup_of_pairs.
  destruct (last_bound k (map shown_pair l)); reflexivity.
Qed.

(** X19.  With a group name the helpers act on the path [lvdisplay]
    printed under [LV Name]: after the [lvdisplay] of [vg/name], [revert]
    runs [lvconvert --merge] on that path and [delete] runs [lvremove] on
    it, each returning when its command returns and raising its error
    when it fails; when no [LV Name] was printed both raise [KeyError]
    and issue nothing more. *)
Theorem helpers_use_displayed_path name vg (w : world H)
        indent heading break l err s1 :
  is_wide_gap indent = true -> is_cell heading = true ->
  is_wide_gap break = true -> forallb shown_ok l = true ->
  execute H ["lvdisplay"; (vg ++ "/" ++ name)%string] (sys w)
  = (Return (lvdisplay_text indent heading break l, err), s1) ->
  let display := ["lvdisplay"; (vg ++ "/" ++ name)%string] in
  let acts (cmd : list string) : outcome unit * world H :=
    match execute H cmd s1 with
    | (Return _, s2) =>
        (Return tt, mk_world (self w) s2 (trace w ++ [Exec display; Exec cmd]))
    | (Raise e, s2) =>
        (Raise e, mk_world (self w) s2 (trace w ++ [Exec display; Exec cmd]))
    end in
  match last_bound "LV Name" (map shown_pair l) with
  | Some path =>
      lv_revert H name (Some vg) w = acts ["lvconvert"; "--merge"; path]
      /\ lv_delete H name (Some vg) w = acts ["lvremove"; path]
  | None =>
      lv_revert H name (Some vg) w
      = (Raise (KeyError "LV Name"),
         mk_world (self w) s1 (trace w ++ [Exec display]))
      /\ lv_delete H name (Some vg) w
         = (Raise (KeyError "LV Name"),
            mk_world (self w) s1 (trace w ++ [Exec display]))
  end.
Proof.
  intros Hi Hh Hb Hl E display acts. subst display acts.
  pose proof (lv_get_of_display _ _ _ _ _ _ _ _ _ Hi Hh Hb Hl E) as G.
  pose proof (ldict_lookup_of_pairs "LV Name" (map shown_pair l) []) as L.
  fold (dict_of_pairs (some_values (map shown_pair l))) in L.
  destruct (last_bound "LV Name" (map shown_pair l)) as [path|];
    cbn [ldict_lookup] in L;
    split; unfold lv_revert, lv_delete; unfold bind at 1; rewrite G;
    unfold bind at 1; unfold ldict_item; rewrite L;
    unfold ret, raise, bind, putils_execute; cbn [py_str sys self trace];
    try reflexivity;
    match goal with
    | |- context [execute H ?c s1] => destruct (execute H c s1) as [[x|x] s2]
    end;
    rewrite <- !app_assoc; reflexivity.
Qed.

(** X20.  When what [lvdisplay] printed has fewer than three fields, as an
    empty output has, [get] raises [IndexError] at one of its three
    deletions and returns no dict. *)
Theorem lv_get_short_output_raises name vg (w : world H) out err s1 :
  execute H ["lvdisplay"; (vg ++ "/" ++ name)%string] (sys w)
  = (Return (out, err), s1) ->
  length (re_split_2ws out) < 3 ->
  lv_get H name (Some vg) w =
  (Raise IndexError,
   mk_world (self w) s1
            (trace w ++ [Exec ["lvdisplay"; (vg ++ "/" ++ name)%string]])).
Proof.
  intros E Hn. unfold lv_get, bind, ret.
  rewrite (putils_execute_run H _ _ _ _ E). cbn [fst].
  destruct (re_split_2ws out) as [|a [|b [|c r]]];
    try (cbn in Hn; lia); reflexivity.
Qed.

End LvUtilsMore.

(** ** Creating a volume

    The test [terras >= 1.5] goes through two roundings, the one of
    [float(n)] and the one of its quotient by [1024.0].  The magnitude of
    a float, the binary logarithm of its mantissa plus its exponent, is
    followed through [binary_round_aux]: a number of magnitude twelve or
    more keeps it, and its quotient by [1024.0] is above [1.5].  The
    sizes below 2048 are checked one by one. *)

Section RegionSize.

Local Open Scope Z_scope.

Lemma fexp_eq (x : Z) :
  fexp PyNum.prec PyNum.emax x = Z.max (x - 53) (-1074).
Proof. reflexivity. Qed.

Lemma digits2_size (p : positive) : digits2_pos p = Pos.size p.
Proof. induction p; cbn; now rewrite ?IHp. Qed.

Lemma Zdigits2_log2 (p : positive) :
  Zdigits2 (Zpos p) = Z.log2 (Zpos p) + 1.
Proof.
  cbn [Zdigits2]. rewrite digits2_size.
  destruct p; cbn [Pos.size Z.log2]; lia.
Qed.

Lemma shr_1_m (mrs : shr_record) :
  0 <= shr_m mrs -> shr_m (shr_1 mrs) = Z.div2 (shr_m mrs).
Proof.
  destruct mrs as [m r s]. cbn [shr_m shr_1].
  destruct m as [|[p|p|]|p]; intros Hm; try reflexivity; lia.
Qed.

Lemma iter_shr_m (p : positive) (mrs : shr_record) :
  0 <= shr_m mrs ->
  shr_m (iter_pos shr_1 p mrs) = Z.shiftr (shr_m mrs) (Zpos p).
Proof.
  revert mrs. induction p as [p IH|p IH|]; intros mrs Hm; cbn [iter_pos].
  - assert (H1 : 0 <= shr_m (shr_1 mrs)).
    { rewrite shr_1_m by exact Hm. rewrite Z.div2_spec.
      apply Z.shiftr_nonneg. exact Hm. }
    assert (H2 : 0 <= shr_m (iter_pos shr_1 p (shr_1 mrs))).
    { rewrite IH by exact H1. apply Z.shiftr_nonneg. exact H1. }
    rewrite IH by exact H2. rewrite IH by exact H1.
    rewrite shr_1_m by exact Hm. rewrite Z.div2_spec.
    rewrite !Z.shiftr_shiftr by lia. f_equal. lia.
  - assert (H2 : 0 <= shr_m (iter_pos shr_1 p mrs)).
    { rewrite IH by exact Hm. apply Z.shiftr_nonneg. exact Hm. }
    rewrite IH by exact H2. rewrite IH by exact Hm.
    rewrite !Z.shiftr_shiftr by lia. f_equal. lia.
  - rewrite shr_1_m by exact Hm. now rewrite Z.div2_spec.
Qed.

Lemma shr_record_of_loc_m m l : shr_m (shr_record_of_loc m l) = m.
Proof. destruct l as [|[]]; reflexivity. Qed.

Lemma shiftr_pos (m k : Z) :
  0 < m -> 0 <= k <= Z.log2 m ->
  0 < Z.shiftr m k /\ Z.log2 (Z.shiftr m k) = Z.log2 m - k.
Proof.
  intros Hm Hk.
  assert (L : Z.log2 (Z.shiftr m k) = Z.log2 m - k).
  { rewrite Z.log2_shiftr by exact Hm. lia. }
  split; [|exact L].
  rewrite Z.shiftr_div_pow2 by lia.
  apply Z.div_str_pos. split; [apply Z.pow_pos_nonneg; lia|].
  pose proof (Z.log2_spec m Hm) as [Lo _].
  apply Z.le_trans with (2 ^ Z.log2 m); [|exact Lo].
  apply Z.pow_le_mono_r; lia.
Qed.

(** Shifting a positive mantissa to its format exponent. *)
Lemma shr_fexp_spec (m e : Z) (l : location) :
  0 < m -> -1074 < Z.log2 m + 1 + e ->
  exists mrs e1,
    shr_fexp PyNum.prec PyNum.emax m e l = (mrs, e1) /\
    e <= e1 /\
    Z.max (Z.log2 m + 1 + e - 53) (-1074) <= e1 /\
    0 < shr_m mrs /\
    Z.log2 (shr_m mrs) + 1 + e1 = Z.log2 m + 1 + e.
Proof.
  intros Hm Hmag. unfold shr_fexp.
  destruct m as [|p|p]; try lia.
  rewrite Zdigits2_log2, fexp_eq. unfold shr.
  destruct (Z.max (Z.log2 (Z.pos p) + 1 + e - 53) (-1074) - e) as [|k|k] eqn:K.
  - eexists _, _. split; [reflexivity|].
    rewrite shr_record_of_loc_m. repeat split; lia.
  - eexists _, _. split; [reflexivity|].
    rewrite iter_shr_m by (rewrite shr_record_of_loc_m; lia).
    rewrite shr_record_of_loc_m.
    destruct (shiftr_pos (Z.pos p) (Z.pos k) Hm ltac:(lia)) as [P L].
    rewrite L. repeat split; lia.
  - eexists _, _. split; [reflexivity|].
    rewrite shr_record_of_loc_m. repeat split; lia.
Qed.

Lemma round_nearest_even_bounds m l :
  m <= round_nearest_even m l <= m + 1.
Proof.
  destruct l as [|[]]; cbn [round_nearest_even]; try lia.
  destruct (Z.even m); lia.
Qed.

(** Rounding a positive number that is not below the floats: the result
    is infinite or a float that is not smaller in magnitude. *)
Lemma binary_round_aux_spec (s : bool) (m e : Z) (l : location) :
  0 < m -> -1074 < Z.log2 m + 1 + e ->
  binary_round_aux PyNum.prec PyNum.emax s m e l = S754_infinity s
  \/ exists m' e',
      binary_round_aux PyNum.prec PyNum.emax s m e l = S754_finite s m' e' /\
      Z.max (Z.log2 m + 1 + e - 53) (-1074) <= e' /\
      Z.log2 m + 1 + e <= Z.log2 (Zpos m') + 1 + e'.
Proof.
  intros Hm Hmag. unfold binary_round_aux.
  destruct (shr_fexp_spec m e l Hm Hmag) as (mrs & e1 & -> & He1 & Hf1 & P1 & L1).
  pose proof (round_nearest_even_bounds (shr_m mrs) (loc_of_shr_record mrs)) as B.
  set (m2 := round_nearest_even (shr_m mrs) (loc_of_shr_record mrs)) in *.
  assert (Hm2 : 0 < m2) by lia.
  assert (L2 : Z.log2 (shr_m mrs) <= Z.log2 m2) by (apply Z.log2_le_mono; lia).
  destruct (shr_fexp_spec m2 e1 loc_Exact Hm2 ltac:(lia))
    as (mrs2 & e2 & -> & He2 & Hf2 & P2 & L3).
  destruct (shr_m mrs2) as [|m3|m3] eqn:M3; try lia.
  destruct (e2 <=? PyNum.emax - PyNum.prec); [right | left; reflexivity].
  exists m3, e2. split; [reflexivity|]. lia.
Qed.

Lemma binary_round_aux_sign (s : bool) (m e : Z) (l : location) :
  match binary_round_aux PyNum.prec PyNum.emax s m e l with
  | S754_zero s' | S754_infinity s' | S754_finite s' _ _ => s' = s
  | S754_nan => True
  end.
Proof.
  unfold binary_round_aux.
  destruct (shr_fexp _ _ m e l) as [mrs e1].
  destruct (shr_fexp _ _ _ e1 loc_Exact) as [mrs2 e2].
  destruct (shr_m mrs2); [reflexivity | | exact I].
  destruct (e2 <=? PyNum.emax - PyNum.prec); reflexivity.
Qed.

Lemma iter_xO_shiftl (p d : positive) :
  Zpos (Pos.iter xO p d) = Z.shiftl (Zpos p) (Zpos d).
Proof.
  cbn [Z.shiftl].
  apply (Pos.iter_swap_gen _ _ Zpos xO (Z.mul 2)). reflexivity.
Qed.

(** The float of a positive int is no smaller in magnitude. *)
Lemma float_of_positive (p : positive) (x : spec_float) :
  PyNum.float (Zpos p) = Return x ->
  exists m e,
    x = S754_finite false m e /\
    Z.log2 (Zpos p) + 1 <= Z.log2 (Zpos m) + 1 + e.
Proof.
  unfold PyNum.float, binary_normalize, binary_round, shl_align.
  rewrite fexp_eq.
  assert (R : forall mz ez,
             Z.log2 (Zpos mz) + 1 + ez = Z.log2 (Zpos p) + 1 ->
             match binary_round_aux PyNum.prec PyNum.emax false (Zpos mz) ez
                                    loc_Exact with
             | S754_infinity _ =>
                 Raise (OverflowError "long int too large to convert to float")
             | f => Return f
             end = Return x ->
             exists m e,
               x = S754_finite false m e /\
               Z.log2 (Zpos p) + 1 <= Z.log2 (Zpos m) + 1 + e).
  { intros mz ez Hmag.
    pose proof (Z.log2_nonneg (Zpos p)) as Hp.
    destruct (binary_round_aux_spec false (Zpos mz) ez loc_Exact
                ltac:(lia) ltac:(lia)) as [-> | (m' & e' & -> & _ & Hl)].
    - discriminate.
    - intros E. inversion E; subst. exists m', e'. split; [reflexivity|]. lia. }
  destruct (Z.max (Z.pos (digits2_pos p) + 0 - 53) (-1074) - 0) as [|d|d] eqn:D.
  - apply R. lia.
  - apply R. lia.
  - apply R. rewrite iter_xO_shiftl.
    rewrite Z.log2_shiftl by lia.
    pose proof (Zdigits2_log2 p) as Hd. cbn [Zdigits2] in Hd. lia.
Qed.

Lemma div_eucl_div (a b q r : Z) : Z.div_eucl a b = (q, r) -> q = a / b.
Proof. intros E. unfold Z.div. now rewrite E. Qed.

(** Dividing a float of magnitude twelve or more by [1024.0] gives a
    float above [1.5]. *)
Lemma large_over_1024 (m : positive) (e : Z) :
  12 <= Z.log2 (Zpos m) + 1 + e ->
  PyNum.ge (SFdiv PyNum.prec PyNum.emax (S754_finite false m e) PyNum.f1024)
           PyNum.f1_5 = true.
Proof.
  intros Hmag. unfold PyNum.f1024. cbn [SFdiv xorb].
  unfold SFdiv_core_binary. rewrite Zdigits2_log2, fexp_eq.
  change (Zdigits2 4503599627370496) with 53.
  pose proof (Z.log2_nonneg (Zpos m)) as Hl.
  set (e' := Z.min _ _).
  assert (He1 : e' <= e + 42) by (unfold e'; lia).
  assert (He2 : e' <= Z.log2 (Zpos m) + 1 + e - 64) by (unfold e'; lia).
  set (s := e - -42 - e').
  assert (Hs : 0 <= s /\ 105 <= Z.log2 (Zpos m) + s
               /\ s + e' = e + 42) by (unfold s; lia).
  assert (Hm' : match s with
                | Z.pos _ => Z.shiftl (Z.pos m) s
                | 0 => Z.pos m
                | Z.neg _ => 0
                end = Z.shiftl (Zpos m) s).
  { destruct s; [now rewrite Z.shiftl_0_r | reflexivity | lia]. }
  rewrite Hm'. clearbody s e'.
  destruct (Z.div_eucl (Z.shiftl (Zpos m) s) 4503599627370496) as [q r] eqn:Q.
  apply div_eucl_div in Q.
  change 4503599627370496 with (2 ^ 52) in Q.
  rewrite <- Z.shiftr_div_pow2 in Q by lia.
  assert (P : 0 < Z.shiftl (Zpos m) s).
  { rewrite Z.shiftl_mul_pow2 by lia.
    apply Z.mul_pos_pos; [lia | apply Z.pow_pos_nonneg; lia]. }
  assert (L : Z.log2 (Z.shiftl (Zpos m) s) = Z.log2 (Zpos m) + s)
    by (apply Z.log2_shiftl; lia).
  destruct (shiftr_pos _ 52 P ltac:(lia)) as [Pq Lq]. rewrite <- Q in Pq, Lq.
  destruct (binary_round_aux_spec false q e'
              (new_location 4503599627370496 r) Pq ltac:(lia))
    as [-> | (m3 & e3 & -> & He3 & _)].
  - reflexivity.
  - unfold PyNum.ge, PyNum.f1_5, SFleb. cbn [SFcompare].
    assert (C : (-52 ?= e3) = Lt) by (apply Z.compare_lt_iff; lia).
    now rewrite C.
Qed.

Lemma negative_over_1024 (p : positive) :
  match binary_normalize PyNum.prec PyNum.emax (Zneg p) 0 false with
  | S754_infinity _ => True
  | x =>
      PyNum.ge (SFdiv PyNum.prec PyNum.emax x PyNum.f1024) PyNum.f1_5 = false
  end.
Proof.
  unfold binary_normalize, binary_round.
  destruct (shl_align p 0 _) as [mz ez].
  pose proof (binary_round_aux_sign true (Zpos mz) ez loc_Exact) as S.
  destruct (binary_round_aux _ _ true (Zpos mz) ez loc_Exact)
    as [s|s| |s m e]; try exact I; try subst s; try reflexivity.
  unfold PyNum.f1024. cbn [SFdiv xorb].
  destruct (SFdiv_core_binary _ _ _ _ _ _) as [[mq eq] lq].
  pose proof (binary_round_aux_sign true mq eq lq) as S.
  destruct (binary_round_aux _ _ true mq eq lq) as [s|s| |s m' e'];
    try subst s; reflexivity.
Qed.

Lemma zrange_in (n lo : Z) (k : nat) :
  lo <= n < lo + Z.of_nat k -> In n (zrange lo k).
Proof.
  revert lo. induction k as [|k IH]; intros lo Hn; [lia|].
  cbn [zrange]. destruct (Z.eq_dec lo n) as [->|Hne]; [now left|].
  right. apply IH. lia.
Qed.

Lemma small_sizes_checked :
  forallb (fun n => Bool.eqb (at_least_1_5_terras n) (1536 <=? n))
          (zrange 0 2048) = true.
Proof. vm_compute. reflexivity. Qed.

(** The test [terras >= 1.5] holds exactly from 1536 on. *)
Lemma terras_threshold (n : Z) (x : spec_float) :
  PyNum.float n = Return x ->
  PyNum.truediv x PyNum.f1024
  = Return (SFdiv PyNum.prec PyNum.emax x PyNum.f1024)
  /\ PyNum.ge (SFdiv PyNum.prec PyNum.emax x PyNum.f1024) PyNum.f1_5
     = (1536 <=? n).
Proof.
  intros E. split; [reflexivity|].
  destruct (Z_lt_le_dec n 0) as [Hneg|Hpos].
  - destruct n as [|p|p]; try lia.
    pose proof (negative_over_1024 p) as N.
    unfold PyNum.float in E.
    destruct (binary_normalize _ _ (Zneg p) 0 false) eqn:B;
      try discriminate; inversion E; subst; rewrite N; reflexivity.
  - destruct (Z_lt_le_dec n 2048) as [Hs|Hl].
    + pose proof small_sizes_checked as C.
      rewrite forallb_forall in C.
      specialize (C n (zrange_in n 0 2048 ltac:(lia))).
      apply Bool.eqb_prop in C. rewrite <- C.
      unfold at_least_1_5_terras. unfold PyNum.float in E.
      destruct (binary_normalize _ _ n 0 false) eqn:B;
        try discriminate; inversion E; subst; reflexivity.
    + destruct n as [|p|p]; try lia.
      destruct (float_of_positive p x E) as (m & e & -> & Hm).
      assert (11 <= Z.log2 (Zpos p)).
      { change 11 with (Z.log2 2048). apply Z.log2_le_mono. lia. }
      rewrite (large_over_1024 m e ltac:(lia)).
      symmetry. apply Z.leb_le. lia.
Qed.

Lemma powers_checked :
  forallb (fun k =>
             match PyNum.int_of_float
                     (binary_normalize PyNum.prec PyNum.emax 1 k false) with
             | Return r => r =? 2 ^ k
             | Raise _ => false
             end) (zrange 0 1024) = true.
Proof. vm_compute. reflexivity. Qed.

Lemma pow2_whole (k : Z) :
  0 <= k < 1024 ->
  exists p, PyNum.pow2 (PyNum.WInt k) = Return p
            /\ PyNum.int_of_float p = Return (2 ^ k).
Proof.
  intros Hk. unfold PyNum.pow2.
  assert (E : (PyNum.emax <=? k) = false) by (apply Z.leb_gt; unfold PyNum.emax; lia).
  rewrite E. eexists. split; [reflexivity|].
  pose proof powers_checked as C. rewrite forallb_forall in C.
  specialize (C k (zrange_in k 0 1024 ltac:(lia))).
  destruct (PyNum.int_of_float _) as [r|e]; [|discriminate].
  apply Z.eqb_eq in C. now subst.
Qed.

Section CreateFacts.

Variable H : Host.
Variable math_log : spec_float -> outcome spec_float.

Lemma runs_putils_execute cmd (w : world H) :
  bind (putils_execute H cmd)
       (fun oe => log_debug H ("output was: " ++ fst oe)) w
  = runs H cmd w.
Proof.
  unfold bind, putils_execute, runs, log_debug, emit, modify.
  destruct (execute H cmd (sys w)) as [[oe|e] s]; [|reflexivity].
  cbn [self sys trace]. rewrite <- app_assoc. reflexivity.
Qed.

(** The region size when the two logarithms are there. *)
Lemma region_size_power t a b k (w : world H) :
  math_log t = Return a ->
  math_log PyNum.f2 = Return b ->
  PyNum.is_zero b = false ->
  PyNum.ceil (SFdiv PyNum.prec PyNum.emax a b) = PyNum.WInt k ->
  0 <= k < 1024 ->
  region_size H math_log t w = (Return (2 ^ k), w).
Proof.
  intros Ha Hb Hz Hc Hk.
  destruct (pow2_whole k Hk) as (p & Hp & Hi).
  unfold region_size, bind, pure, PyNum.truediv.
  rewrite Ha, Hb, Hz, Hc, Hp, Hi. reflexivity.
Qed.

Lemma region_size_keeps_world t (w : world H) :
  snd (region_size H math_log t w) = w.
Proof.
  unfold region_size, bind, pure.
  destruct (math_log t) as [a|]; [|reflexivity].
  destruct (math_log PyNum.f2) as [b|]; [|reflexivity].
  destruct (PyNum.truediv a b) as [q|]; [|reflexivity].
  destruct (PyNum.pow2 (PyNum.ceil q)) as [p|]; [|reflexivity].
  destruct (PyNum.int_of_float p); reflexivity.
Qed.

Lemma create_volume_mirrored name size type mirror_count n x (w : world H) :
  0 < mirror_count ->
  PyNum.int (PyNum.drop_last size) = Return n ->
  PyNum.float n = Return x ->
  let cmd := ["lvcreate"; "-n"; name; vg_name (self w)]
             ++ (if String.eqb type "thin"
                 then ["-T"; "-V"; size] else ["-L"; size])
             ++ ["-m"; PyNum.str mirror_count; "--nosync"] in
  create_volume H math_log name size type mirror_count w =
  if n <? 1536 then runs H cmd w
  else match region_size H math_log
               (SFdiv PyNum.prec PyNum.emax x PyNum.f1024) w with
       | (Return rsize, _) => runs H (cmd ++ ["-R"; PyNum.str rsize]) w
       | (Raise e, _) => (Raise e, w)
       end.
Proof.
  intros Hm Hn Hx cmd. subst cmd.
  destruct (terras_threshold n x Hx) as [Hd Hge].
  apply Z.ltb_lt in Hm.
  pose proof (region_size_keeps_world
                (SFdiv PyNum.prec PyNum.emax x PyNum.f1024) w) as P.
  unfold create_volume, bind, get_self, pure.
  rewrite Hm, Hn, Hx, Hd, Hge, Z.leb_antisym.
  destruct (n <? 1536); cbn [negb].
  - unfold ret, runs, putils_execute, log_debug, emit, modify.
    destruct (String.eqb type "thin"); cbn [app self sys trace];
      match goal with
      | |- context [execute H ?c (sys w)] =>
          destruct (execute H c (sys w)) as [[oe|e] s]
      end; cbn [self sys trace]; rewrite <- ?app_assoc; reflexivity.
  - destruct (region_size H math_log _ w) as [[r|e] w0]; cbn [snd] in P;
      subst w0; [|reflexivity].
    unfold ret, runs, putils_execute, log_debug, emit, modify.
    destruct (String.eqb type "thin"); cbn [app self sys trace];
      match goal with
      | |- context [execute H ?c (sys w)] =>
          destruct (execute H c (sys w)) as [[oe|e] s]
      end; cbn [self sys trace]; rewrite <- ?app_assoc; reflexivity.
Qed.

(** C6.  The region size of a mirrored volume, as [create_volume]
    computes it.  With [mirror_count > 0] and a size whose number, before
    its last character, is [n]: below 1536 the command carries no [-R];
    from 1536 on it carries [-R] and [2 ** k], where [k] is [math.ceil]
    of the float quotient of the two logarithms.  That is 2 at [2048G] and
    4 at [3072G].  It is not always the smallest power of two at or above
    [n / 1024]: at [549755813888G], where [n / 1024] is [2 ** 29]
    exactly, the logarithms the C library returns have a quotient just
    above 29, and the region size is [2 ** 30], twice the size itself. *)
Theorem create_volume_region_size name type (w : world H) :
  let mirrored (size : string) (mirror_count : Z) :=
    ["lvcreate"; "-n"; name; vg_name (self w)]
    ++ (if String.eqb type "thin" then ["-T"; "-V"; size] else ["-L"; size])
    ++ ["-m"; PyNum.str mirror_count; "--nosync"] in
  (forall size mirror_count n x,
      0 < mirror_count ->
      PyNum.int (PyNum.drop_last size) = Return n ->
      PyNum.float n = Return x ->
      n < 1536 ->
      create_volume H math_log name size type mirror_count w
      = runs H (mirrored size mirror_count) w)
  /\
  (forall size mirror_count n x a b k,
      0 < mirror_count ->
      PyNum.int (PyNum.drop_last size) = Return n ->
      PyNum.float n = Return x ->
      1536 <= n ->
      math_log (SFdiv PyNum.prec PyNum.emax x PyNum.f1024) = Return a ->
      math_log PyNum.f2 = Return b ->
      PyNum.is_zero b = false ->
      PyNum.ceil (SFdiv PyNum.prec PyNum.emax a b) = PyNum.WInt k ->
      0 <= k < 1024 ->
      create_volume H math_log name size type mirror_count w
      = runs H (mirrored size mirror_count ++ ["-R"; PyNum.str (2 ^ k)]) w)
  /\
  (math_log PyNum.f2 = Return ln_2 ->
   create_volume H math_log name "2048G" type 1 w
   = runs H (mirrored "2048G" 1 ++ ["-R"; "2"]) w)
  /\
  (math_log PyNum.f2 = Return ln_2 ->
   math_log f3 = Return ln_3 ->
   create_volume H math_log name "3072G" type 1 w
   = runs H (mirrored "3072G" 1 ++ ["-R"; "4"]) w)
  /\
  (math_log PyNum.f2 = Return ln_2 ->
   math_log f2_29 = Return ln_2_29 ->
   PyNum.float 549755813888 = Return (S754_finite false 4503599627370496 (-13))
   /\ PyNum.truediv (S754_finite false 4503599627370496 (-13)) PyNum.f1024
      = Return f2_29
   /\ PyNum.int_of_float f2_29 = Return 536870912
   /\ create_volume H math_log name "549755813888G" type 1 w
      = runs H (mirrored "549755813888G" 1 ++ ["-R"; "1073741824"]) w).
Proof.
  intros mirrored. subst mirrored. cbv beta.
  assert (B : forall size mirror_count n x a b k,
      0 < mirror_count ->
      PyNum.int (PyNum.drop_last size) = Return n ->
      PyNum.float n = Return x ->
      1536 <= n ->
      math_log (SFdiv PyNum.prec PyNum.emax x PyNum.f1024) = Return a ->
      math_log PyNum.f2 = Return b ->
      PyNum.is_zero b = false ->
      PyNum.ceil (SFdiv PyNum.prec PyNum.emax a b) = PyNum.WInt k ->
      0 <= k < 1024 ->
      create_volume H math_log name size type mirror_count w
      = runs H ((["lvcreate"; "-n"; name; vg_name (self w)]
                 ++ (if String.eqb type "thin"
                     then ["-T"; "-V"; size] else ["-L"; size])
                 ++ ["-m"; PyNum.str mirror_count; "--nosync"])
                ++ ["-R"; PyNum.str (2 ^ k)]) w).
  { intros size mirror_count n x a b k Hm Hn Hx Hge Ha Hb Hz Hc Hk.
    rewrite (create_volume_mirrored name size type mirror_count n x w
               Hm Hn Hx).
    assert (L : (n <? 1536) = false) by (apply Z.ltb_ge; exact Hge).
    rewrite L.
    now rewrite (region_size_power _ a b k w Ha Hb Hz Hc Hk). }
  split; [|split; [exact B|]].
  - intros size mirror_count n x Hm Hn Hx Hlt.
    rewrite (create_volume_mirrored name size type mirror_count n x w
               Hm Hn Hx).
    assert (L : (n <? 1536) = true) by (apply Z.ltb_lt; exact Hlt).
    now rewrite L.
  - split; [|split].
    + intros L2.
      exact (B "2048G" 1 2048 (S754_finite false 4503599627370496 (-41))
               ln_2 ln_2 1 eq_refl eq_refl eq_refl ltac:(lia)
               L2 L2 eq_refl eq_refl ltac:(lia)).
    + intros L2 L3.
      exact (B "3072G" 1 3072 (S754_finite false 6755399441055744 (-41))
               ln_3 ln_2 2 eq_refl eq_refl eq_refl ltac:(lia)
               L3 L2 eq_refl eq_refl ltac:(lia)).
    + intros L2 L29.
      split; [reflexivity|]. split; [reflexivity|]. split; [reflexivity|].
      exact (B "549755813888G" 1 549755813888
               (S754_finite false 4503599627370496 (-13))
               ln_2_29 ln_2 30 eq_refl eq_refl eq_refl ltac:(lia)
               L29 L2 eq_refl eq_refl ltac:(lia)).
Qed.

(** X22.  Without mirrors the size is not read as a number:
    [create_volume] runs the plain create, with [-L size] or, for a thin
    volume, [-T -V size], whatever the size says, and logs the output. *)
Theorem create_volume_unmirrored name size type mirror_count (w : world H) :
  mirror_count <= 0 ->
  create_volume H math_log name size type mirror_count w
  = runs H (["lvcreate"; "-n"; name; vg_name (self w)]
            ++ (if String.eqb type "thin"
                then ["-T"; "-V"; size] else ["-L"; size])) w.
Proof.
  intros Hm. apply Z.ltb_ge in Hm.
  unfold create_volume, bind, get_self, ret. rewrite Hm.
  unfold runs, putils_execute, log_debug, emit, modify.
  destruct (String.eqb type "thin"); cbn [app self sys trace];
    match goal with
    | |- context [execute H ?c (sys w)] =>
        destruct (execute H c (sys w)) as [[oe|e] s]
    end; cbn [self sys trace]; rewrite <- ?app_assoc; reflexivity.
Qed.

(** X23.  With mirrors, a size that is no number before its last
    character, or whose number is too large for a float, stops
    [create_volume] before any command: the error is raised and nothing
    is run or logged. *)
Theorem create_volume_bad_size_raises name size type mirror_count e
        (w : world H) :
  0 < mirror_count ->
  PyNum.int (PyNum.drop_last size) = Raise e
  \/ (exists n, PyNum.int (PyNum.drop_last size) = Return n
                /\ PyNum.float n = Raise e) ->
  create_volume H math_log name size type mirror_count w = (Raise e, w).
Proof.
  intros Hm Hbad. apply Z.ltb_lt in Hm.
  unfold create_volume, bind, get_self, pure. rewrite Hm.
  destruct Hbad as [Hn | (n & Hn & Hx)].
  - now rewrite Hn.
  - now rewrite Hn, Hx.
Qed.

End CreateFacts.

End RegionSize.

(** ** The further properties on concrete machines *)

Lemma instance_was_checked_witness :
  new_LVM demo "vg9" true (Some ["/dev/sdb"]) ["vg0"]
  = (Return (initialised "vg9" true (Some ["/dev/sdb"])),
     @mk_world demo (initialised "vg9" true (Some ["/dev/sdb"]))
       ["vg0"; "vg9"]
       [Exec (vgcreate_request "vg9" ["/dev/sdb"]); Exec vgs_query])
  /\ exists s1 out err,
       reaches_check demo "vg9" true (Some ["/dev/sdb"]) ["vg0"] s1 /\
       execute demo vgs_query s1 = (Return (out, err), ["vg0"; "vg9"]) /\
       PyStr.mem "vg9" (PyStr.split_ws out) = true /\
       vg_name (initialised "vg9" true (Some ["/dev/sdb"])) = "vg9".
Proof.
  split; [reflexivity|].
  exact (instance_was_checked demo "vg9" true (Some ["/dev/sdb"]) ["vg0"]
           _ _ eq_refl).
Defined.

Lemma failed_vgcreate_stops_construction_witness :
  execute refusing (vgcreate_request "vg9" ["/dev/sdb"]) tt
  = (Raise (ProcessExecutionError 5 "" "vgcreate vg9 /dev/sdb"), tt)
  /\ commands (trace (snd (new_LVM refusing "vg9" true (Some ["/dev/sdb"]) tt)))
     = [vgcreate_request "vg9" ["/dev/sdb"]].
Proof.
  split; [reflexivity|].
  rewrite (failed_vgcreate_stops_construction refusing "vg9" ["/dev/sdb"]
             tt tt _ eq_refl).
  reflexivity.
Defined.

Lemma inventory_failure_propagates_witness :
  execute refusing (lvs_query (Some "vg0")) tt
  = (Raise (ProcessExecutionError 5 ""
              "lvs --noheadings -o vg_name,name,size vg0"), tt)
  /\ fst (create_lv_snapshot refusing "snap" "lv1" "default"
            (plain_world refusing tt vg0_object))
     = Raise (ProcessExecutionError 5 ""
                "lvs --noheadings -o vg_name,name,size vg0").
Proof.
  split; [reflexivity|].
  rewrite (proj2 (inventory_failure_propagates refusing "snap" "lv1"
                    "default" (plain_world refusing tt vg0_object) _ tt
                    eq_refl)).
  reflexivity.
Defined.

Lemma create_lv_snapshot_returns_falsy_witness :
  fst (create_lv_snapshot demo "snap" "lv1" "default" (demo_world vg0_object))
  = Return PNone
  /\ truthy PNone = false.
Proof.
  split; [reflexivity|].
  exact (proj1 (create_lv_snapshot_returns_falsy demo "snap" "lv1" "default"
                  (demo_world vg0_object) _ PNone eq_refl)).
Defined.

Lemma get_all_volumes_reads_listing_witness :
  forallb line_ok listed = true
  /\ lvs_listing listed
     = ("  cinder-volumes volume-0001 12.00g" ++ nl ++
        "  vg0            lv1          1.00g" ++ nl)%string
  /\ get_all_volumes lvs_printer None (plain_world lvs_printer tt vg0_object)
     = (Return [[("vg", "cinder-volumes"); ("name", "volume-0001");
                 ("size", "12.00g")];
                [("vg", "vg0"); ("name", "lv1"); ("size", "1.00g")]],
        @mk_world lvs_printer vg0_object tt
          [Exec ["lvs"; "--noheadings"; "-o"; "vg_name,name,size"]]).
Proof.
  split; [reflexivity|]. split; [reflexivity|].
  exact (get_all_volumes_reads_listing lvs_printer
           None (plain_world lvs_printer tt vg0_object) listed "" tt
           eq_refl eq_refl).
Defined.

Lemma listed_volume_is_found_witness :
  In (mk_lvs_line "  " "vg0" "            " "lv1" "          " "1.00g" "")
     listed
  /\ exists r w',
       get_volume lvs_printer "lv1"
         (plain_world lvs_printer tt vg0_object)
       = (Return (Some r), w') /\
       dict_lookup "name" r = Some "lv1" /\
       lv_list (self w') = map lv_record (map line_fields listed) /\
       In r (lv_list (self w')) /\
       find (named "lv1") (map lv_record (map line_fields listed)) = Some r.
Proof.
  assert (I : In (mk_lvs_line "  " "vg0" "            " "lv1" "          "
                              "1.00g" "") listed)
    by (right; left; reflexivity).
  split; [exact I|].
  exact (listed_volume_is_found lvs_printer "lv1"
           (plain_world lvs_printer tt vg0_object) listed "" tt _
           eq_refl eq_refl I eq_refl).
Defined.

Lemma get_all_physical_volumes_reads_listing_witness :
  forallb is_row (map pv_row devices) = true
  /\ fst (get_all_physical_volumes
            pvs_printer None
            (plain_world pvs_printer
                         tt vg0_object))
     = Return (map pv_dict devices).
Proof.
  split; [reflexivity|].
  exact (get_all_physical_volumes_reads_listing
           pvs_printer
           None (plain_world pvs_printer tt vg0_object) "  " devices "" tt
           eq_refl eq_refl eq_refl).
Defined.

Lemma get_all_volume_groups_reads_listing_witness :
  forallb is_row (map vg_row groups) = true
  /\ fst (get_all_volume_groups
            vgs_printer (Some "vg0")
            (plain_world vgs_printer
                         tt vg0_object))
     = Return (map vg_dict groups).
Proof.
  split; [reflexivity|].
  exact (get_all_volume_groups_reads_listing
           vgs_printer
           (Some "vg0") (plain_world vgs_printer tt vg0_object) "  " groups "" tt
           eq_refl eq_refl eq_refl).
Defined.

Lemma two_failures :
  failed_attempts fails_twice "ls" (Some true) 2 0 2
    (failed_attempt "ls" (Some true) rejected 20 ++
     failed_attempt "ls" (Some true) (SocketError "reset") 20 ++ []).
Proof.
  apply (one_more fails_twice "ls" (Some true) 1 0 rejected 1 20 1 2 _
           eq_refl eq_refl).
  apply (one_more fails_twice "ls" (Some true) 0 1 (SocketError "reset")
           2 20 2 2 _ eq_refl eq_refl).
  apply no_attempt.
Defined.

Lemma run_ssh_returns_first_success_witness :
  ssh_execute fails_twice "ls" (Some true) 2 = (Return ("ok", ""), 3)
  /\ fst (_run_ssh fails_twice "ls" (Some true) 3
            (@mk_rworld fails_twice true 0 []))
     = Return ("ok", "").
Proof.
  split; [reflexivity|].
  rewrite (run_ssh_returns_first_success fails_twice "ls" (Some true) 3
             (@mk_rworld fails_twice true 0 []) 2 0 2 _ ("ok", "") 3
             eq_refl eq_refl two_failures eq_refl eq_refl).
  reflexivity.
Defined.

Lemma run_ssh_exhausts_budget_witness :
  fst (_run_ssh fails_twice "ls" (Some true) 2
         (@mk_rworld fails_twice true 0 []))
  = Raise (gave_up "ls" (Some true) 0 2)
  /\ fst (_run_ssh fails_twice "ls" (Some true) (-1)
            (@mk_rworld fails_twice true 0 []))
     = Raise (gave_up "ls" (Some true) (-1) (-1)).
Proof.
  split.
  - rewrite (run_ssh_exhausts_budget fails_twice "ls" (Some true) 2
               (@mk_rworld fails_twice true 0 []) 0 2 _
               eq_refl eq_refl two_failures).
    reflexivity.
  - rewrite (run_ssh_exhausts_budget fails_twice "ls" (Some true) (-1)
               (@mk_rworld fails_twice true 0 []) 0 0 []
               eq_refl eq_refl (no_attempt fails_twice "ls" (Some true) 0)).
    reflexivity.
Defined.

Lemma failed_pool_construction_is_not_logged_witness :
  SSHPool no_pool 0 = (Raise (SocketError "connection refused"), 0)
  /\ _run_ssh no_pool "ls" (Some true) 3 (fresh_rworld no_pool 0)
     = (Raise (SocketError "connection refused"),
        @mk_rworld no_pool false 0 [PoolNew]).
Proof.
  split; [reflexivity|].
  exact (failed_pool_construction_is_not_logged no_pool "ls" (Some true) 3
           (fresh_rworld no_pool 0) _ 0 eq_refl eq_refl).
Defined.

Lemma failed_checkout_executes_nothing_witness :
  item no_session 0 = (Raise (SocketError "connection refused"), 0)
  /\ _run_ssh no_session "ls" (Some true) 3 (@mk_rworld no_session true 0 [])
     = (Raise (SocketError "connection refused"),
        @mk_rworld no_session true 0 [PoolItem; ssh_error_line "ls"]).
Proof.
  split; [reflexivity|].
  exact (failed_checkout_executes_nothing no_session "ls" (Some true) 3
           (@mk_rworld no_session true 0 []) _ 0 eq_refl eq_refl).
Defined.

Lemma run_ssh_releases_once_witness :
  item fails_once 0 = (Return tt, 0)
  /\ exists r w' body,
       _run_ssh fails_once "ls" (Some true) 5
                (@mk_rworld fails_once true 0 []) = (r, w') /\
       rtrace w' = [] ++ [PoolItem] ++ body ++ [PoolRelease] ++ closing r "ls" /\
       forallb loop_event body = true /\
       count is_ssh_exec body <= Z.to_nat 5 /\
       count is_sleep body <= count is_ssh_exec body /\
       sshpool w' = true.
Proof.
  split; [reflexivity|].
  exact (run_ssh_releases_once fails_once "ls" (Some true) 5
           (@mk_rworld fails_once true 0 []) 0 eq_refl eq_refl).
Defined.

Lemma san_execute_remote_single_attempt_witness :
  ssh_execute fails_once "lvremove -f vg0/lv1" (Some true) 0
  = (Raise rejected, 1)
  /\ fst (san_execute fails_once (option bool) (fun kw => kw)
            (fun _ _ n => (Return ("", ""), n))
            false ["lvremove"; "-f"; "vg0/lv1"] (Some true)
            (@mk_rworld fails_once true 0 []))
     = Raise (gave_up "lvremove -f vg0/lv1" (Some true) 0 1).
Proof.
  split; [reflexivity|].
  rewrite (san_execute_remote_single_attempt fails_once (option bool)
             (fun kw => kw) (fun _ _ n => (Return ("", ""), n))
             ["lvremove"; "-f"; "vg0/lv1"] (Some true)
             (@mk_rworld fails_once true 0 []) 0 (Raise rejected) 1 20 1
             eq_refl eq_refl eq_refl eq_refl).
  reflexivity.
Defined.

Lemma lv_get_reads_lvdisplay_witness :
  forallb shown_ok lv1_display = true
  /\ lvdisplay_text "  " heading next_line lv1_display
     = ("  --- Logical volume ---" ++ nl ++
        "  LV Name                /dev/vg0/lv1" ++ nl ++
        "  VG Name                vg0" ++ nl ++
        "  LV Size                1.00 GiB" ++ nl ++
        "   " ++ nl)%string
  /\ exists d,
       lv_get display_printer "lv1" (Some "vg0")
         (plain_world display_printer tt vg0_object)
       = (Return d,
          @mk_world display_printer vg0_object tt
            ([] ++ [Exec ["lvdisplay"; "vg0/lv1"]])) /\
       forall k, ldict_lookup k d
                 = option_map Some (last_bound k (map shown_pair lv1_display)).
Proof.
  split; [reflexivity|]. split; [reflexivity|].
  exact (lv_get_reads_lvdisplay
           display_printer "lv1" "vg0"
           (plain_world display_printer tt vg0_object)
           "  " heading next_line lv1_display "" tt
           eq_refl eq_refl eq_refl eq_refl eq_refl).
Defined.

Lemma helpers_use_displayed_path_witness :
  last_bound "LV Name" (map shown_pair lv1_display) = Some "/dev/vg0/lv1"
  /\ lv_revert display_printer "lv1" (Some "vg0")
       (plain_world display_printer tt vg0_object)
     = (Return tt,
        @mk_world display_printer vg0_object tt
          [Exec ["lvdisplay"; "vg0/lv1"];
           Exec ["lvconvert"; "--merge"; "/dev/vg0/lv1"]])
  /\ lv_delete display_printer "lv1" (Some "vg0")
       (plain_world display_printer tt vg0_object)
     = (Return tt,
        @mk_world display_printer vg0_object tt
          [Exec ["lvdisplay"; "vg0/lv1"]; Exec ["lvremove"; "/dev/vg0/lv1"]]).
Proof.
  split; [reflexivity|].
  exact (helpers_use_displayed_path
           display_printer "lv1" "vg0"
           (plain_world display_printer tt vg0_object)
           "  " heading next_line lv1_display "" tt
           eq_refl eq_refl eq_refl eq_refl eq_refl).
Defined.

Lemma lv_get_short_output_raises_witness :
  length (re_split_2ws "") < 3
  /\ fst (lv_get silent "lv1" (Some "vg0")
            (plain_world silent tt vg0_object))
     = Raise IndexError.
Proof.
  assert (L : length (re_split_2ws "") < 3) by (cbn; lia).
  split; [exact L|].
  rewrite (lv_get_short_output_raises silent "lv1" "vg0"
             (plain_world silent tt vg0_object) "" "" tt eq_refl L).
  reflexivity.
Defined.

Lemma run_ssh_three_attempts_with_session_witness :
  obtains_session unreachable (fresh_rworld unreachable 0) 0
  /\ failed_attempts unreachable "ls" (Some true) 3 0 3
       (failed_attempt "ls" (Some true) (SocketError "timed out") 20 ++
        failed_attempt "ls" (Some true) (SocketError "timed out") 20 ++
        failed_attempt "ls" (Some true) (SocketError "timed out") 20 ++ [])
  /\ _run_ssh unreachable "ls" (Some true) 3 (fresh_rworld unreachable 0) =
     (Raise (SSHException gave_up_message
               (Some (mk_ssh_locals "ls" (Some true) 0 3))),
      @mk_rworld unreachable true 3
        [PoolNew; PoolItem;
         SshExec "ls" (Some true); LogExn (SocketError "timed out"); Sleep 20;
         SshExec "ls" (Some true); LogExn (SocketError "timed out"); Sleep 20;
         SshExec "ls" (Some true); LogExn (SocketError "timed out"); Sleep 20;
         PoolRelease; ssh_error_line "ls"])
  /\ count is_ssh_exec
       (rtrace (snd (_run_ssh unreachable "ls" (Some true) 3
                       (fresh_rworld unreachable 0)))) = 3.
Proof.
  assert (S0 : obtains_session unreachable (fresh_rworld unreachable 0) 0).
  { exists 0. split; reflexivity. }
  assert (F : failed_attempts unreachable "ls" (Some true) 3 0 3
       (failed_attempt "ls" (Some true) (SocketError "timed out") 20 ++
        failed_attempt "ls" (Some true) (SocketError "timed out") 20 ++
        failed_attempt "ls" (Some true) (SocketError "timed out") 20 ++ [])).
  { apply (one_more unreachable "ls" (Some true) 2 0 _ 1 20 1 3);
      [reflexivity | reflexivity |].
    apply (one_more unreachable "ls" (Some true) 1 1 _ 2 20 2 3);
      [reflexivity | reflexivity |].
    apply (one_more unreachable "ls" (Some true) 0 2 _ 3 20 3 3);
      [reflexivity | reflexivity |].
    apply no_attempt. }
  split; [exact S0|]. split; [exact F|].
  destruct (run_ssh_three_attempts_with_session unreachable "ls" (Some true)
              (fresh_rworld unreachable 0) 0 3 _ S0 F) as (E & Hx & _).
  split; [exact E | exact Hx].
Defined.

(** C5 fails on the code when no session is to be had.  On [down] the
    transport fails wherever it is tried and the budget is 3, yet [_run_ssh]
    never executes the command and raises the error of the pool, or of the
    checkout when the pool is already there, not [SSHException]. *)
Lemma transport_down_means_no_attempt :
  (forall c cec s, ssh_execute down c cec s = (Raise no_route, s))
  /\ _run_ssh down "ls" (Some true) 3 (fresh_rworld down tt)
     = (Raise no_route, @mk_rworld down false tt [PoolNew])
  /\ _run_ssh down "ls" (Some true) 3 (@mk_rworld down true tt [])
     = (Raise no_route,
        @mk_rworld down true tt [PoolItem; ssh_error_line "ls"])
  /\ count is_ssh_exec
       (rtrace (snd (_run_ssh down "ls" (Some true) 3
                       (fresh_rworld down tt)))) = 0
  /\ count is_ssh_exec
       (rtrace (snd (_run_ssh down "ls" (Some true) 3
                       (@mk_rworld down true tt [])))) = 0.
Proof.
  repeat split; reflexivity.
Qed.

Lemma create_volume_region_size_witness :
  libm_log PyNum.f2 = Return ln_2
  /\ libm_log f2_29 = Return ln_2_29
  /\ create_volume demo libm_log "v" "549755813888G" "default" 1
       (demo_world vg0_object)
     = (Return tt,
        @mk_world demo vg0_object ["vg0"; "vg1"]
          [Exec ["lvcreate"; "-n"; "v"; "vg0"; "-L"; "549755813888G";
                 "-m"; "1"; "--nosync"; "-R"; "1073741824"];
           LogDebug "output was: "])
  /\ create_volume demo libm_log "v" "1535G" "thin" 2 (demo_world vg0_object)
     = (Return tt,
        @mk_world demo vg0_object ["vg0"; "vg1"]
          [Exec ["lvcreate"; "-n"; "v"; "vg0"; "-T"; "-V"; "1535G";
                 "-m"; "2"; "--nosync"];
           LogDebug "output was: "]).
Proof.
  split; [reflexivity|]. split; [reflexivity|].
  split.
  - destruct (create_volume_region_size demo libm_log "v" "default"
                (demo_world vg0_object)) as (_ & _ & _ & _ & D).
    destruct (D eq_refl eq_refl) as (_ & _ & _ & E).
    rewrite E. reflexivity.
  - destruct (create_volume_region_size demo libm_log "v" "thin"
                (demo_world vg0_object)) as (A & _).
    rewrite (A "1535G" 2%Z 1535%Z
               (S754_finite false 6751001394544640 (-42))
               eq_refl eq_refl eq_refl eq_refl).
    reflexivity.
Defined.

Lemma create_volume_unmirrored_witness :
  create_volume demo libm_log "v" "tenG" "default" 0 (demo_world vg0_object)
  = (Return tt,
     @mk_world demo vg0_object ["vg0"; "vg1"]
       [Exec ["lvcreate"; "-n"; "v"; "vg0"; "-L"; "tenG"];
        LogDebug "output was: "]).
Proof.
  rewrite (create_volume_unmirrored demo libm_log "v" "tenG" "default" 0
             (demo_world vg0_object) ltac:(discriminate)).
  reflexivity.
Defined.

Lemma create_volume_bad_size_raises_witness :
  PyNum.int (PyNum.drop_last "tenG")
  = Raise (ValueError "invalid literal for int() with base 10")
  /\ create_volume demo libm_log "v" "tenG" "default" 1
       (demo_world vg0_object)
     = (Raise (ValueError "invalid literal for int() with base 10"),
        demo_world vg0_object).
Proof.
  split; [reflexivity|].
  exact (create_volume_bad_size_raises demo libm_log "v" "tenG" "default" 1
           _ (demo_world vg0_object) eq_refl (or_introl eq_refl)).
Defined.
